(** * A2A SerpAPI hotel agent: a shallow embedding of [main.py]

    The agent answers JSON-RPC requests ([handle_a2a]) by running one of
    two skills ([search_hotels_live], [get_hotel_details]) against the
    SerpAPI Google Hotels endpoint and by keeping the finished tasks in a
    process-wide dictionary.

    Python values that travel through the agent are parsed JSON documents;
    they are modelled by [json].  Exceptions are modelled by [result], the
    task dictionary and the outbound HTTP traffic by [World], and what a
    request reads from its surroundings (clock, upstream reply, fresh
    uuid) by [Env]. *)

From Stdlib Require Import QArith.
From stdpp Require Import base strings list gmap pretty.

Set Warnings "-register-all".

Local Open Scope string_scope.
Local Open Scope Z_scope.

(** ** Parsed JSON values *)

(** A Python [float]: a finite binary64 is a rational number, and the
    agent only tests floats against zero and orders them, which Python
    does exactly; [json.loads] also produces infinities (overflowing
    literals, [Infinity]) and NaN (the literal [NaN]). *)
Inductive pyfloat : Type :=
| FNan
| FInf (negative : bool)
| FFin (q : Q).

(** What [json.loads] returns.  A [dict] is an association list in
    insertion order whose keys are pairwise distinct; looking a key up
    takes its first binding.  A [str] is the sequence of its UTF-8 bytes;
    a lone surrogate, which [json.loads] accepts from an escape such as
    [\ud800], is the three bytes that encoding gives a code point in
    that range (ED, then A0 to BF, then a third).  Limits on resources
    (recursion depth, memory) are not modelled. *)
Inductive json : Type :=
| JNull
| JBool (b : bool)
| JInt (z : Z)
| JFloat (f : pyfloat)
| JStr (s : string)
| JArr (items : list json)
| JObj (fields : list (string * json)).

Definition dict : Type := list (string * json).

(** ** Exceptions *)

(** [httpx.HTTPStatusError] carries the response status; every other
    exception of the model is an [Exception] of class [cls].  [str(e)] is
    [text] in both cases.  Exceptions outside [Exception] (task
    cancellation, interpreter exit) are not modelled. *)
Inductive exn : Type :=
| HTTPStatusError (status : Z) (text : string)
| PyError (cls : string) (text : string).

Definition str_exn (e : exn) : string :=
  match e with
  | HTTPStatusError _ text => text
  | PyError _ text => text
  end.

Inductive result (A : Type) : Type :=
| Ok (a : A)
| Raise (e : exn).
Arguments Ok {A} a.
Arguments Raise {A} e.

#[export] Instance result_ret : MRet result := @Ok.
#[export] Instance result_bind : MBind result := λ A B f m,
  match m with
  | Ok a => f a
  | Raise e => Raise e
  end.

(** ** Python operations on parsed values *)

Definition type_name (v : json) : string :=
  match v with
  | JNull => "NoneType"
  | JBool _ => "bool"
  | JInt _ => "int"
  | JFloat _ => "float"
  | JStr _ => "str"
  | JArr _ => "list"
  | JObj _ => "dict"
  end.

Definition AttributeError (v : json) (attr : string) : exn :=
  PyError "AttributeError"
    ("'" +:+ type_name v +:+ "' object has no attribute '" +:+ attr +:+ "'").

Definition TypeError (text : string) : exn := PyError "TypeError" text.

Definition KeyError (text : string) : exn := PyError "KeyError" text.

(** [bool(v)]: what [if v], [not v], [a and b], [a or b] look at. *)
Definition py_truthy (v : json) : bool :=
  match v with
  | JNull => false
  | JBool b => b
  | JInt z => negb (z =? 0)
  | JFloat (FFin q) => negb (Qeq_bool q 0)
  | JFloat _ => true
  | JStr s => negb (String.eqb s "")
  | JArr items => match items with [] => false | _ => true end
  | JObj fields => match fields with [] => false | _ => true end
  end.

(** [a or b] on values that are already evaluated. *)
Definition py_or (a b : json) : json := if py_truthy a then a else b.

Fixpoint dict_get (k : string) (d : dict) : option json :=
  match d with
  | [] => None
  | (k', v) :: d' => if String.eqb k k' then Some v else dict_get k d'
  end.

(** [d[k] = v]: an existing key keeps its place, a new key goes last. *)
Fixpoint dict_set (k : string) (v : json) (d : dict) : dict :=
  match d with
  | [] => [(k, v)]
  | (k', v') :: d' =>
      if String.eqb k k' then (k, v) :: d' else (k', v') :: dict_set k v d'
  end.

(** [o.get(k, default)]; only a [dict] has the method. *)
Definition py_get (o : json) (k : string) (dflt : json) : result json :=
  match o with
  | JObj d => Ok (default dflt (dict_get k d))
  | _ => Raise (AttributeError o "get")
  end.

(** [len(v)]: sized containers only. *)
Definition py_len (v : json) : result nat :=
  match v with
  | JStr s => Ok (String.length s)
  | JArr items => Ok (length items)
  | JObj fields => Ok (length fields)
  | _ => Raise (TypeError ("object of type '" +:+ type_name v +:+ "' has no len()"))
  end.

(** The characters of a string, each a string of length one.  Strings
    are sequences of bytes here, which is exact on ASCII text; the agent
    never looks inside a character it iterates over. *)
Fixpoint chars (s : string) : list json :=
  match s with
  | EmptyString => []
  | String c s' => JStr (String c EmptyString) :: chars s'
  end.

(** [list(v[:n])]: the elements of the slice, in order.  A [dict] cannot
    be sliced (a [TypeError] up to Python 3.11, a [KeyError] after). *)
Definition py_slice (v : json) (n : nat) : result (list json) :=
  match v with
  | JArr items => Ok (take n items)
  | JStr s => Ok (take n (chars s))
  | JObj _ => Raise (TypeError "unhashable type: 'slice'")
  | _ => Raise (TypeError ("'" +:+ type_name v +:+ "' object is not subscriptable"))
  end.

(** [v[0]] on a value that [len] accepted and that is not empty. *)
Definition py_first (v : json) : result json :=
  match v with
  | JArr (x :: _) => Ok x
  | JArr [] => Raise (PyError "IndexError" "list index out of range")
  | JStr (String c _) => Ok (JStr (String c EmptyString))
  | JStr EmptyString => Raise (PyError "IndexError" "string index out of range")
  | JObj _ => Raise (KeyError "0")
  | _ => Raise (TypeError ("'" +:+ type_name v +:+ "' object is not subscriptable"))
  end.

(** [for x in v]: a list gives its elements, a string its characters, a
    [dict] its keys. *)
Definition py_iter (v : json) : result (list json) :=
  match v with
  | JArr items => Ok items
  | JStr s => Ok (chars s)
  | JObj fields => Ok (JStr <$> fields.*1)
  | _ => Raise (TypeError ("'" +:+ type_name v +:+ "' object is not iterable"))
  end.

(** [v[k]] with a string key. *)
Definition py_getitem (v : json) (k : string) : result json :=
  match v with
  | JObj d =>
      match dict_get k d with
      | Some x => Ok x
      | None => Raise (KeyError ("'" +:+ k +:+ "'"))
      end
  | JArr _ => Raise (TypeError "list indices must be integers or slices, not str")
  | JStr _ => Raise (TypeError "string indices must be integers, not 'str'")
  | _ => Raise (TypeError ("'" +:+ type_name v +:+ "' object is not subscriptable"))
  end.

(** [v[k] = x] with a string key; the container after the assignment. *)
Definition py_setitem (v : json) (k : string) (x : json) : result json :=
  match v with
  | JObj d => Ok (JObj (dict_set k x d))
  | JArr _ => Raise (TypeError "list indices must be integers or slices, not str")
  | _ => Raise (TypeError
           ("'" +:+ type_name v +:+ "' object does not support item assignment"))
  end.

(** *** Numbers, equality and order *)

(** [bool] is a subclass of [int]: [True] counts as 1 in comparisons. *)
Definition num_of (v : json) : option pyfloat :=
  match v with
  | JBool b => Some (FFin (inject_Z (if b then 1 else 0)))
  | JInt z => Some (FFin (inject_Z z))
  | JFloat f => Some f
  | _ => None
  end.

Definition num_eq (x y : pyfloat) : bool :=
  match x, y with
  | FFin p, FFin q => Qeq_bool p q
  | FInf a, FInf b => Bool.eqb a b
  | _, _ => false
  end.

Definition num_lt (x y : pyfloat) : bool :=
  match x, y with
  | FNan, _ | _, FNan => false
  | FFin p, FFin q => negb (Qle_bool q p)
  | FInf a, FInf b => a && negb b
  | FInf a, FFin _ => a
  | FFin _, FInf b => negb b
  end.

(** [json.loads] hands out one and the same object for every [NaN] it
    reads, and containers compare their elements by identity before they
    compare them by value. *)
Definition is_nan (v : json) : bool :=
  match v with
  | JFloat FNan => true
  | _ => false
  end.

(** [a == b] on parsed values: numbers by value ([NaN] equals nothing),
    containers by content, a [dict] regardless of the order of its keys.
    Inside a container two elements are equal when they are the same
    object or equal by value; every [NaN] of a parsed document is the one
    object [json.decoder.NaN], so there [NaN] equals [NaN]. *)
Fixpoint py_eq (a b : json) {struct a} : bool :=
  match a, b with
  | JNull, JNull => true
  | JStr s, JStr t => String.eqb s t
  | JArr l, JArr m =>
      (fix go (l m : list json) {struct l} : bool :=
         match l, m with
         | [], [] => true
         | x :: l', y :: m' => (is_nan x && is_nan y || py_eq x y) && go l' m'
         | _, _ => false
         end) l m
  | JObj d, JObj e =>
      (length d =? length e)%nat &&
      (fix all (d : list (string * json)) {struct d} : bool :=
         match d with
         | [] => true
         | (k, v) :: d' =>
             match dict_get k e with
             | Some w => (is_nan v && is_nan w || py_eq v w) && all d'
             | None => false
             end
         end) d
  | _, _ =>
      match num_of a, num_of b with
      | Some x, Some y => num_eq x y
      | _, _ => false
      end
  end.

Definition not_ordered (a b : json) : exn :=
  TypeError ("'<' not supported between instances of '" +:+ type_name a +:+
             "' and '" +:+ type_name b +:+ "'").

(** [a < b]: numbers by value, strings and lists lexicographically (a
    list looks for the first place where the elements are neither the
    same object nor equal, and orders those); any other pair of types
    raises. *)
Fixpoint py_lt (a b : json) {struct a} : result bool :=
  match a, b with
  | JStr s, JStr t => Ok (String.ltb s t)
  | JArr l, JArr m =>
      (fix go (l m : list json) {struct l} : result bool :=
         match l, m with
         | [], [] => Ok false
         | [], _ :: _ => Ok true
         | _ :: _, [] => Ok false
         | x :: l', y :: m' =>
             if is_nan x && is_nan y || py_eq x y then go l' m' else py_lt x y
         end) l m
  | _, _ =>
      match num_of a, num_of b with
      | Some x, Some y => Ok (num_lt x y)
      | _, _ => Raise (not_ordered a b)
      end
  end.

(** [o.keys()]: only a [dict] has the method. *)
Definition py_keys (o : json) : result (list string) :=
  match o with
  | JObj d => Ok d.*1
  | _ => Raise (AttributeError o "keys")
  end.

(** [k in tasks] and [tasks[k]] hash the key first; lists and dicts are
    not hashable. *)
Definition py_hashable (v : json) : result unit :=
  match v with
  | JArr _ | JObj _ => Raise (TypeError ("unhashable type: '" +:+ type_name v +:+ "'"))
  | _ => Ok tt
  end.

(** ** The world around a request *)

(** One outbound [client.get(url, params=...)]. *)
Record request : Type := Request {
  req_url : string;
  req_params : dict
}.

(** What [httpx] hands back for a response that arrived: its status
    line and URL, the lines [raise_for_status] appends to its message
    after the URL (redirect location, documentation link), and what
    [response.json()] gives: the decoded document, or the text of the
    decoding error. *)
Record upstream_response : Type := UpstreamResponse {
  status_code : Z;
  reason_phrase : string;
  response_url : string;
  status_note : string;
  response_json : string + json
}.

(** [client.get] either returns a response or raises a transport error
    (timeout after 30 seconds, connection failure, ...). *)
Inductive reply : Type :=
| Answered (r : upstream_response)
| Unanswered (cls : string) (text : string).

(** What one request reads from outside the process: the clock
    ([(datetime.now() + timedelta(days=n)).strftime("%Y-%m-%d")]), the
    upstream's reaction to an outbound call, and the value of
    [str(uuid.uuid4())]. *)
Record Env : Type := {
  now_plus_days : nat → string;
  upstream : request → reply;
  uuid4 : string
}.

(** The state a request can change: the [tasks] dictionary, and the
    outbound calls made so far (oldest first). *)
Record World : Type := {
  tasks : gmap string json;
  sent : list request
}.

(** Computations that may raise and that act on the world. *)
Definition M (A : Type) : Type := World → result A * World.

#[export] Instance M_ret : MRet M := λ A a w, (Ok a, w).
#[export] Instance M_bind : MBind M := λ A B f m w,
  match m w with
  | (Ok a, w') => f a w'
  | (Raise e, w') => (Raise e, w')
  end.

Definition lift {A : Type} (r : result A) : M A := λ w, (r, w).

(** [try: body except Exception as e: handler(e)] *)
Definition try_except {A : Type} (body : M A) (handler : exn → M A) : M A := λ w,
  match body w with
  | (Ok a, w') => (Ok a, w')
  | (Raise e, w') => handler e w'
  end.

Definition client_get (env : Env) (url : string) (params : dict) : M upstream_response := λ w,
  let req := Request url params in
  let w' := {| tasks := tasks w; sent := sent w ++ [req] |} in
  match upstream env req with
  | Answered r => (Ok r, w')
  | Unanswered cls text => (Raise (PyError cls text), w')
  end.

(** [httpx.Response.raise_for_status]: anything but 2xx raises
    [HTTPStatusError], whose message starts with the class of the status
    and the status line. *)
Definition error_type (status : Z) : string :=
  match status `div` 100 with
  | 1 => "Informational response"
  | 3 => "Redirect response"
  | 4 => "Client error"
  | 5 => "Server error"
  | _ => "Invalid status code"
  end.

Definition status_message (r : upstream_response) : string :=
  error_type (status_code r) +:+ " '" +:+ pretty (status_code r) +:+ " " +:+
  reason_phrase r +:+ "' for url '" +:+ response_url r +:+ "'" +:+ status_note r.

Definition raise_for_status (r : upstream_response) : result unit :=
  if (200 <=? status_code r) && (status_code r <=? 299) then Ok tt
  else Raise (HTTPStatusError (status_code r) (status_message r)).

Definition response_json_of (r : upstream_response) : result json :=
  match response_json r with
  | inr data => Ok data
  | inl text => Raise (PyError "JSONDecodeError" text)
  end.

Definition SERPAPI_BASE_URL : string := "https://serpapi.com/search".

(** ** The skills *)

Section Agent.

(** [os.getenv("SERPAPI_API_KEY", "")], read once at import. *)
Variable SERPAPI_API_KEY : string.

(** [repr] of a float, a list or a dict, as CPython prints it. *)
Variable py_repr : json → string.

(** [str(v)], which is what an f-string applies to a field. *)
Definition py_str (v : json) : string :=
  match v with
  | JNull => "None"
  | JBool true => "True"
  | JBool false => "False"
  | JInt z => pretty z
  | JStr s => s
  | _ => py_repr v
  end.

(** *** [search_hotels_live] *)

(** The value of one entry of the comprehension at line 265, which is
    also its filter: [img.get("thumbnail") or img.get("original_image")]. *)
Definition image_url (img : json) : result json :=
  thumbnail ← py_get img "thumbnail" JNull;
  if py_truthy thumbnail then Ok thumbnail
  else py_get img "original_image" JNull.

(** [[image_url(img) for img in imgs if image_url(img)]] *)
Fixpoint image_urls (imgs : list json) : result (list json) :=
  match imgs with
  | [] => Ok []
  | img :: imgs' =>
      keep ← image_url img;
      if py_truthy keep then
        u ← image_url img;
        us ← image_urls imgs';
        Ok (u :: us)
      else image_urls imgs'
  end.

(** Line 265: the ["images"] field of a hotel record. *)
Definition hotel_images (prop : json) : result json :=
  images ← py_get prop "images" (JArr []);
  imgs ← py_slice images 6;
  us ← image_urls imgs;
  Ok (JArr us).

(** Lines 239-281: the record built for one upstream property. *)
Definition make_hotel (currency check_in check_out prop : json) : result json :=
  _ ← py_get prop "name" (JStr "Unknown");
  raw_images ← py_get prop "images" (JArr []);
  _ ← py_len raw_images;
  _ ← (if py_truthy raw_images then py_first raw_images else Ok JNull);
  name ← py_get prop "name" (JStr "Unknown");
  description ← py_get prop "description" (JStr "");
  property_token ← py_get prop "property_token" (JStr "");
  rating ← py_get prop "overall_rating" JNull;
  reviews ← py_get prop "reviews" JNull;
  hotel_class ← py_get prop "hotel_class" JNull;
  address ← py_get prop "address" (JStr "");
  neighborhood ← py_get prop "neighborhood" (JStr "");
  gps ← py_get prop "gps_coordinates" (JObj []);
  latitude ← py_get gps "latitude" JNull;
  gps' ← py_get prop "gps_coordinates" (JObj []);
  longitude ← py_get gps' "longitude" JNull;
  amenities ← py_get prop "amenities" (JArr []);
  images ← hotel_images prop;
  let hotel := JObj [
    ("name", name);
    ("description", description);
    ("propertyToken", property_token);
    ("rating", rating);
    ("reviewCount", reviews);
    ("stars", hotel_class);
    ("price", JNull);
    ("pricePerNight", JNull);
    ("totalPrice", JNull);
    ("currency", currency);
    ("location", JObj [
       ("address", address);
       ("neighborhood", neighborhood);
       ("latitude", latitude);
       ("longitude", longitude)]);
    ("amenities", amenities);
    ("images", images);
    ("checkIn", check_in);
    ("checkOut", check_out)] in
  rate_per_night ← py_get prop "rate_per_night" JNull;
  hotel ← (if py_truthy rate_per_night then
             extracted ← py_get rate_per_night "extracted_lowest" JNull;
             hotel ← py_setitem hotel "pricePerNight" extracted;
             lowest ← py_get rate_per_night "lowest" (JStr "");
             py_setitem hotel "price" lowest
           else Ok hotel);
  total_rate ← py_get prop "total_rate" JNull;
  if py_truthy total_rate then
    extracted ← py_get total_rate "extracted_lowest" JNull;
    py_setitem hotel "totalPrice" extracted
  else Ok hotel.

(** Lines 284-287: does the rating filter skip this record? *)
Definition rating_filter (min_rating hotel : json) : result bool :=
  if py_truthy min_rating then
    rating ← py_getitem hotel "rating";
    if py_truthy rating then
      rating ← py_getitem hotel "rating";
      py_lt rating min_rating
    else Ok false
  else Ok false.

(** Lines 237-289: the loop over the sliced property list; [hotels] is
    the list appended to. *)
Fixpoint transform (min_rating currency check_in check_out : json)
    (props : list json) (hotels : list json) : result (list json) :=
  match props with
  | [] => Ok hotels
  | prop :: props' =>
      hotel ← make_hotel currency check_in check_out prop;
      skip ← rating_filter min_rating hotel;
      transform min_rating currency check_in check_out props'
        (if skip : bool then hotels else hotels ++ [hotel])
  end.

(** Lines 206-212: the price filter added to the request. *)
Definition add_price_filter (min_price max_price : json) (serpapi_params : dict) : dict :=
  match min_price, max_price with
  | JNull, JNull => serpapi_params
  | _, _ =>
      if py_truthy min_price && py_truthy max_price then
        dict_set "price" (JStr (py_str min_price +:+ "," +:+ py_str max_price))
          serpapi_params
      else if py_truthy min_price then
        dict_set "min_price" min_price serpapi_params
      else if py_truthy max_price then
        dict_set "max_price" max_price serpapi_params
      else serpapi_params
  end.

(** Lines 193-212: the query sent upstream. *)
Definition search_params
    (destination check_in check_out adults currency min_price max_price : json) : dict :=
  add_price_filter min_price max_price [
    ("engine", JStr "google_hotels");
    ("q", destination);
    ("check_in_date", check_in);
    ("check_out_date", check_out);
    ("adults", adults);
    ("currency", currency);
    ("api_key", JStr SERPAPI_API_KEY);
    ("hl", JStr "en");
    ("gl", JStr "us")].

Definition search_hotels_live (env : Env) (params : json) : M json :=
  destination ← lift (py_get params "destination" (JStr ""));
  check_in ← lift (py_get params "checkInDate" JNull);
  check_out ← lift (py_get params "checkOutDate" JNull);
  adults ← lift (py_get params "adults" (JInt 2));
  currency ← lift (py_get params "currency" (JStr "USD"));
  min_price ← lift (py_get params "minPrice" JNull);
  max_price ← lift (py_get params "maxPrice" JNull);
  min_rating ← lift (py_get params "minRating" JNull);
  let check_in :=
    if py_truthy check_in then check_in else JStr (now_plus_days env 1) in
  let check_out :=
    if py_truthy check_out then check_out else JStr (now_plus_days env 3) in
  if negb (py_truthy (JStr SERPAPI_API_KEY)) then
    mret (JObj [
      ("success", JBool false);
      ("error", JStr "SerpAPI API key not configured. Please set SERPAPI_API_KEY environment variable.");
      ("hotels", JArr [])])
  else
    let serpapi_params :=
      search_params destination check_in check_out adults currency
        min_price max_price in
    try_except
      (response ← client_get env SERPAPI_BASE_URL serpapi_params;
       _ ← lift (raise_for_status response);
       data ← lift (response_json_of response);
       _ ← lift (py_keys data);
       properties ← lift (py_get data "properties" (JArr []));
       _ ← lift (py_len properties);
       props ← lift (py_slice properties 10);
       hotels ← lift (transform min_rating currency check_in check_out props []);
       mret (JObj [
         ("success", JBool true);
         ("destination", destination);
         ("checkIn", check_in);
         ("checkOut", check_out);
         ("hotelCount", JInt (Z.of_nat (length hotels)));
         ("hotels", JArr hotels);
         ("source", JStr "Google Hotels via SerpAPI")]))
      (λ e,
         match e with
         | HTTPStatusError status _ =>
             mret (JObj [
               ("success", JBool false);
               ("error", JStr ("SerpAPI request failed: " +:+ pretty status));
               ("hotels", JArr [])])
         | _ =>
             mret (JObj [
               ("success", JBool false);
               ("error", JStr ("Failed to search hotels: " +:+ str_exn e));
               ("hotels", JArr [])])
         end).

(** *** [get_hotel_details] *)

Definition get_hotel_details (env : Env) (params : json) : M json :=
  property_token ← lift (py_get params "propertyToken" (JStr ""));
  check_in ← lift (py_get params "checkInDate" JNull);
  check_out ← lift (py_get params "checkOutDate" JNull);
  if negb (py_truthy property_token) then
    mret (JObj [
      ("success", JBool false);
      ("error", JStr "Property token is required")])
  else if negb (py_truthy (JStr SERPAPI_API_KEY)) then
    mret (JObj [
      ("success", JBool false);
      ("error", JStr "SerpAPI API key not configured")])
  else
    let check_in :=
      if py_truthy check_in then check_in else JStr (now_plus_days env 1) in
    let check_out :=
      if py_truthy check_out then check_out else JStr (now_plus_days env 3) in
    let serpapi_params := [
      ("engine", JStr "google_hotels");
      ("property_token", property_token);
      ("check_in_date", check_in);
      ("check_out_date", check_out);
      ("api_key", JStr SERPAPI_API_KEY);
      ("hl", JStr "en");
      ("gl", JStr "us")] in
    try_except
      (response ← client_get env SERPAPI_BASE_URL serpapi_params;
       _ ← lift (raise_for_status response);
       data ← lift (response_json_of response);
       _ ← lift (py_keys data);
       mret (JObj [
         ("success", JBool true);
         ("hotel", data);
         ("source", JStr "Google Hotels via SerpAPI")]))
      (λ e,
         mret (JObj [
           ("success", JBool false);
           ("error", JStr ("Failed to get hotel details: " +:+ str_exn e))])).

(** *** [execute_skill] *)

Definition execute_skill (env : Env) (skill_id params : json) : M json :=
  if py_eq skill_id (JStr "search-hotels-live") then
    search_hotels_live env params
  else if py_eq skill_id (JStr "get-hotel-details") then
    get_hotel_details env params
  else
    mret (JObj [
      ("success", JBool false);
      ("error", JStr ("Unknown skill: " +:+ py_str skill_id))]).

(** ** The JSON-RPC endpoint *)

(** The request model [JsonRpcRequest] after validation. *)
Record JsonRpcRequest : Type := {
  jsonrpc : string;
  id : json;
  method : string;
  params : option dict
}.

(** What the [try] block at lines 437-440 ends with: the body parsed
    and validated, or the exception raised by [request.json()] or by
    the model's validation. *)
Inductive parsed : Type :=
| Valid (rpc_request : JsonRpcRequest)
| Invalid (e : exn).

(** A response object: its status code and the content it was built
    from. *)
Record JSONResponse : Type := {
  http_status : Z;
  content : json
}.

(** What [json.dumps(content, allow_nan=False)] refuses: NaN and the
    infinities, anywhere in the content. *)
Fixpoint all_finite (v : json) : bool :=
  match v with
  | JFloat (FFin _) => true
  | JFloat _ => false
  | JArr items =>
      (fix go (l : list json) : bool :=
         match l with
         | [] => true
         | x :: l' => all_finite x && go l'
         end) items
  | JObj fields =>
      (fix go (d : list (string * json)) : bool :=
         match d with
         | [] => true
         | (_, x) :: d' => all_finite x && go d'
         end) fields
  | _ => true
  end.

Definition byte (c : Stdlib.Strings.Ascii.ascii) : N :=
  Stdlib.Strings.Ascii.N_of_ascii c.

(** A lone surrogate somewhere in a string. *)
Fixpoint has_surrogate (s : string) : bool :=
  match s with
  | String c s' =>
      match s' with
      | String c' _ =>
          (byte c =? 237)%N && (160 <=? byte c')%N && (byte c' <=? 191)%N
      | EmptyString => false
      end || has_surrogate s'
  | EmptyString => false
  end.

(** What [.encode("utf-8")] accepts: text without lone surrogates, in
    every string and every key of the content. *)
Fixpoint encodable (v : json) : bool :=
  match v with
  | JStr s => negb (has_surrogate s)
  | JArr items =>
      (fix go (l : list json) : bool :=
         match l with
         | [] => true
         | x :: l' => encodable x && go l'
         end) items
  | JObj fields =>
      (fix go (d : list (string * json)) : bool :=
         match d with
         | [] => true
         | (k, x) :: d' => negb (has_surrogate k) && encodable x && go d'
         end) fields
  | _ => true
  end.

(** [JSONResponse(content=...)]: the constructor renders the content
    at once, with [json.dumps(..., ensure_ascii=False, allow_nan=False)]
    and then [.encode("utf-8")], and either step can raise; the handler
    never passes a status code, so a response that is built carries the
    class's default, 200.  The texts of the two exceptions are given
    without the value and the position the interpreter adds to them;
    nothing in the program reads them. *)
Definition json_response (c : json) : result JSONResponse :=
  if negb (all_finite c) then
    Raise (PyError "ValueError" "Out of range float values are not JSON compliant")
  else if negb (encodable c) then
    Raise (PyError "UnicodeEncodeError"
             "'utf-8' codec can't encode character: surrogates not allowed")
  else Ok {| http_status := 200; content := c |}.

Definition create_json_rpc_response (id result : json) : json :=
  JObj [("jsonrpc", JStr "2.0"); ("id", id); ("result", result)].

Definition create_json_rpc_error (id : json) (code : Z) (message : string)
    (data : json) : json :=
  let error := [("code", JInt code); ("message", JStr message)] in
  let error := if py_truthy data then dict_set "data" data error else error in
  JObj [("jsonrpc", JStr "2.0"); ("id", id); ("error", JObj error)].

Definition get_tasks : M (gmap string json) := λ w, (Ok (tasks w), w).

Definition put_tasks (t : gmap string json) : M unit := λ w,
  (Ok tt, {| tasks := t; sent := sent w |}).

(** [task_id in tasks] followed, on a hit, by [tasks[task_id]].  The
    keys of [tasks] are strings, so a hashable key of another type is
    never found. *)
Definition find_task (task_id : json) : M (option (string * json)) :=
  _ ← lift (py_hashable task_id);
  t ← get_tasks;
  mret (match task_id with
        | JStr k => (λ task, (k, task)) <$> t !! k
        | _ => None
        end).

(** Lines 463-468: the parameters of the skill are the data of the
    first part of type ["data"]. *)
Fixpoint task_params_of (parts : list json) : result json :=
  match parts with
  | [] => Ok (JObj [])
  | part :: parts' =>
      part_type ← py_get part "type" JNull;
      if py_eq part_type (JStr "data") then py_get part "data" (JObj [])
      else task_params_of parts'
  end.

Definition handle_a2a (env : Env) (request : parsed) : M JSONResponse :=
  match request with
  | Invalid e =>
      lift (json_response
        (create_json_rpc_error JNull (-32700) ("Parse error: " +:+ str_exn e) JNull))
  | Valid rpc_request =>
      let method := method rpc_request in
      let params := py_or (from_option JObj JNull (params rpc_request)) (JObj []) in
      let request_id := id rpc_request in
      if String.eqb method "tasks/send" then
        message ← lift (py_get params "message" (JObj []));
        skill_id ← lift (py_get params "skillId" (JStr ""));
        parts ← lift (py_get message "parts" (JArr []));
        parts ← lift (py_iter parts);
        task_params ← lift (task_params_of parts);
        let task_id := uuid4 env in
        result ← execute_skill env skill_id task_params;
        let task := JObj [
          ("id", JStr task_id);
          ("status", JObj [("state", JStr "completed")]);
          ("artifacts", JArr [
             JObj [("parts", JArr [
                JObj [("type", JStr "data");
                      ("data", result);
                      ("mimeType", JStr "application/json")]])]])] in
        t ← get_tasks;
        _ ← put_tasks (<[task_id := task]> t);
        _ ← lift (py_get result "success" JNull);
        _ ← lift (py_get result "hotelCount" (JStr "N/A"));
        lift (json_response (create_json_rpc_response request_id task))
      else if String.eqb method "tasks/get" then
        task_id ← lift (py_get params "id" JNull);
        found ← find_task task_id;
        match found with
        | Some (_, task) =>
            lift (json_response (create_json_rpc_response request_id task))
        | None =>
            lift (json_response
              (create_json_rpc_error request_id (-32000) "Task not found" JNull))
        end
      else if String.eqb method "tasks/cancel" then
        task_id ← lift (py_get params "id" JNull);
        found ← find_task task_id;
        match found with
        | Some (k, task) =>
            status ← lift (py_getitem task "status");
            status ← lift (py_setitem status "state" (JStr "canceled"));
            task ← lift (py_setitem task "status" status);
            t ← get_tasks;
            _ ← put_tasks (<[k := task]> t);
            lift (json_response (create_json_rpc_response request_id task))
        | None =>
            lift (json_response
              (create_json_rpc_error request_id (-32000) "Task not found" JNull))
        end
      else
        lift (json_response
          (create_json_rpc_error request_id (-32601)
             ("Method not found: " +:+ method) JNull))
  end.

End Agent.

(** * Properties *)

(** ** Reasoning about [result] and [M] *)

(** Unfolds the plumbing of [M] and [result]. *)
Ltac run_M :=
  unfold try_except, client_get, get_tasks, put_tasks, lift, mbind, M_bind,
    result_bind, mret, M_ret, result_ret;
  cbn beta iota.

(** Case analysis on the first computation of a chain of binds. *)
Ltac case_bind :=
  cbn [mbind result_bind];
  match goal with
  | |- context [@mbind result _ _ _ _ ?m] => destruct m as [?|?] eqn:?
  end;
  cbn [mbind result_bind].

Definition is_dict (v : json) : bool :=
  match v with
  | JObj _ => true
  | _ => false
  end.

Lemma is_dict_true (v : json) : is_dict v = true → ∃ d, v = JObj d.
Proof. destruct v; try discriminate; eauto. Qed.

Lemma py_get_dict (d : dict) (k : string) (dflt : json) :
  py_get (JObj d) k dflt = Ok (default dflt (dict_get k d)).
Proof. reflexivity. Qed.

(** ** Image extraction (line 265) *)

(** The URL an image entry contributes: the thumbnail if there is one,
    else the original image, else nothing.  "There is one" is Python
    truthiness: a missing key, [null] and the empty string all count as
    absent. *)
Definition chosen_url (img : json) : option json :=
  match img with
  | JObj d =>
      let thumbnail := default JNull (dict_get "thumbnail" d) in
      let original := default JNull (dict_get "original_image" d) in
      if py_truthy thumbnail then Some thumbnail
      else if py_truthy original then Some original
      else None
  | _ => None
  end.

Lemma image_url_dict (d : dict) :
  image_url (JObj d) =
  Ok (py_or (default JNull (dict_get "thumbnail" d))
            (default JNull (dict_get "original_image" d))).
Proof.
  unfold image_url, py_or. cbn [py_get mbind result_bind].
  by destruct (py_truthy _).
Qed.

Lemma image_urls_dicts (imgs : list json) :
  forallb is_dict imgs = true → image_urls imgs = Ok (omap chosen_url imgs).
Proof.
  induction imgs as [|img imgs IH]; [done|].
  intros [Himg Himgs]%andb_prop.
  apply is_dict_true in Himg as [d ->].
  cbn [image_urls omap list_omap]. rewrite image_url_dict, (IH Himgs).
  cbn [mbind result_bind].
  unfold chosen_url, py_or.
  destruct (py_truthy (default JNull (dict_get "thumbnail" d))) eqn:Ht.
  - by rewrite Ht.
  - by destruct (py_truthy (default JNull (dict_get "original_image" d))).
Qed.

(** An entry that is not an object makes the comprehension raise. *)
Lemma image_urls_raises (pre post : list json) (img : json) :
  forallb is_dict pre = true → is_dict img = false →
  image_urls (pre ++ img :: post) = Raise (AttributeError img "get").
Proof.
  intros Hpre Himg. induction pre as [|p pre IH]; cbn [app image_urls].
  - by destruct img.
  - apply andb_prop in Hpre as [[d ->]%is_dict_true Hpre].
    rewrite image_url_dict, (IH Hpre). cbn [mbind result_bind].
    by destruct (py_truthy _).
Qed.

(** The list the specification's example starts from, with the key the
    specification names, and with the key the code reads. *)
Definition example_images_original : json :=
  JObj [("images", JArr [
    JObj [("thumbnail", JStr "a")];
    JObj [("original", JStr "b")];
    JObj []])].

Definition example_images_original_image : json :=
  JObj [("images", JArr [
    JObj [("thumbnail", JStr "a")];
    JObj [("original_image", JStr "b")];
    JObj []])].

(** C1, as stated, fails: the fallback key the code reads is
    ["original_image"], so an entry [{original: "b"}] has neither URL and
    is dropped; the example list yields [["a"]], not [["a", "b"]]. *)
Lemma images_original_key_ignored :
  hotel_images example_images_original = Ok (JArr [JStr "a"]) ∧
  hotel_images example_images_original ≠ Ok (JArr [JStr "a"; JStr "b"]).
Proof. split; [reflexivity | discriminate]. Qed.

(** C1, amended: of a property whose image list has objects in its
    first six places, extraction keeps those six in order, gives for each
    its ["thumbnail"] when that is present and not empty, else its
    ["original_image"] when that is present and not empty, and drops the
    entries with neither; [{thumbnail: "a"}, {original_image: "b"}, {}]
    gives [["a", "b"]]. *)
Theorem images_first_six_thumbnail_else_original_image :
  (∀ (prop : dict) (imgs : list json),
     default (JArr []) (dict_get "images" prop) = JArr imgs →
     forallb is_dict (take 6 imgs) = true →
     hotel_images (JObj prop) = Ok (JArr (omap chosen_url (take 6 imgs)))) ∧
  hotel_images example_images_original_image = Ok (JArr [JStr "a"; JStr "b"]).
Proof.
  split; [|reflexivity].
  intros prop imgs Himgs Hdicts. unfold hotel_images.
  cbn [py_get mbind result_bind]. rewrite Himgs. cbn [py_slice mbind result_bind].
  by rewrite (image_urls_dicts _ Hdicts).
Qed.

Lemma images_first_six_witness :
  hotel_images example_images_original_image =
  Ok (JArr (omap chosen_url (take 6 [
    JObj [("thumbnail", JStr "a")];
    JObj [("original_image", JStr "b")];
    JObj []]))).
Proof.
  exact (proj1 images_first_six_thumbnail_else_original_image
           [("images", JArr [
              JObj [("thumbnail", JStr "a")];
              JObj [("original_image", JStr "b")];
              JObj []])]
           _ eq_refl eq_refl).
Defined.

(** ** What a skill reads from its parameter object *)

(** [params.get(k, dflt)] on a parameter object. *)
Definition arg (d : dict) (k : string) (dflt : json) : json :=
  default dflt (dict_get k d).

(** A date parameter, or the clock's date when it is missing or empty. *)
Definition date_or (v : json) (fallback : string) : json :=
  if py_truthy v then v else JStr fallback.

Definition check_in_of (env : Env) (d : dict) : json :=
  date_or (arg d "checkInDate" JNull) (now_plus_days env 1).

Definition check_out_of (env : Env) (d : dict) : json :=
  date_or (arg d "checkOutDate" JNull) (now_plus_days env 3).

(** ** The price filter (lines 206-212) *)

Lemma add_price_filter_truthy (py_repr : json → string) (min_price max_price : json)
    (q : dict) :
  add_price_filter py_repr min_price max_price q =
  if py_truthy min_price && py_truthy max_price then
    dict_set "price" (JStr (py_str py_repr min_price +:+ "," +:+ py_str py_repr max_price)) q
  else if py_truthy min_price then dict_set "min_price" min_price q
  else if py_truthy max_price then dict_set "max_price" max_price q
  else q.
Proof. by destruct min_price, max_price. Qed.

(** C3, as stated, fails: a minimum price of 0 given together with a
    maximum of 300 is not sent as the combined ["0,300"]; the upper bound
    goes out alone. *)
Lemma price_zero_minimum_not_combined :
  let q := search_params "key" (λ _, "") (JStr "Paris") (JStr "2026-01-02")
             (JStr "2026-01-04") (JInt 2) (JStr "USD") (JInt 0) (JInt 300) in
  dict_get "price" q = None ∧ dict_get "min_price" q = None ∧
  dict_get "max_price" q = Some (JInt 300).
Proof. by vm_compute. Qed.

(** C3, amended: a price bound counts as given when it is neither
    missing, [null], zero nor empty (Python truthiness).  With both bounds
    given the query carries ["price"] = ["min,max"] and no single-sided
    parameter; with exactly one given it carries that bound as
    ["min_price"] or ["max_price"] alone; with none given it carries no
    price parameter. *)
Theorem price_filter_encoding (SERPAPI_API_KEY : string) (py_repr : json → string)
    (destination check_in check_out adults currency min_price max_price : json) :
  let q := search_params SERPAPI_API_KEY py_repr destination check_in check_out
             adults currency min_price max_price in
  (dict_get "price" q, dict_get "min_price" q, dict_get "max_price" q) =
  match py_truthy min_price, py_truthy max_price with
  | true, true =>
      (Some (JStr (py_str py_repr min_price +:+ "," +:+ py_str py_repr max_price)),
       None, None)
  | true, false => (None, Some min_price, None)
  | false, true => (None, None, Some max_price)
  | false, false => (None, None, None)
  end.
Proof.
  cbv zeta. unfold search_params. rewrite add_price_filter_truthy.
  by destruct (py_truthy min_price), (py_truthy max_price).
Qed.

(** The specification's examples: 100 and 300 are sent as ["100,300"],
    100 alone as [min_price]. *)
Example price_100_300 (SERPAPI_API_KEY : string) (py_repr : json → string)
    (destination check_in check_out adults currency : json) :
  dict_get "price"
    (search_params SERPAPI_API_KEY py_repr destination check_in check_out
       adults currency (JInt 100) (JInt 300)) = Some (JStr "100,300") ∧
  req_params (Request SERPAPI_BASE_URL
    (search_params SERPAPI_API_KEY py_repr destination check_in check_out
       adults currency (JInt 100) JNull)) !! 9%nat = Some ("min_price", JInt 100).
Proof. split; reflexivity. Qed.

(** ** The two skills, factored

    Everything a skill does after [client.get] returned is a function of
    the response.  The lemmas below split each skill into the request it
    sends, the body of its [try] block as a function of the response, and
    its [except] clauses. *)

Section Skills.

Variable SERPAPI_API_KEY : string.
Variable py_repr : json → string.
Variable env : Env.

Definition search_query (d : dict) : request :=
  Request SERPAPI_BASE_URL
    (search_params SERPAPI_API_KEY py_repr
       (arg d "destination" (JStr "")) (check_in_of env d) (check_out_of env d)
       (arg d "adults" (JInt 2)) (arg d "currency" (JStr "USD"))
       (arg d "minPrice" JNull) (arg d "maxPrice" JNull)).

(** Lines 224-308 as a function of the response. *)
Definition search_try (d : dict) (response : upstream_response) : result json :=
  _ ← raise_for_status response;
  data ← response_json_of response;
  _ ← py_keys data;
  properties ← py_get data "properties" (JArr []);
  _ ← py_len properties;
  props ← py_slice properties 10;
  hotels ← transform (arg d "minRating" JNull) (arg d "currency" (JStr "USD"))
             (check_in_of env d) (check_out_of env d) props [];
  Ok (JObj [
    ("success", JBool true);
    ("destination", arg d "destination" (JStr ""));
    ("checkIn", check_in_of env d);
    ("checkOut", check_out_of env d);
    ("hotelCount", JInt (Z.of_nat (length hotels)));
    ("hotels", JArr hotels);
    ("source", JStr "Google Hotels via SerpAPI")]).

(** Lines 310-324: the two [except] clauses. *)
Definition search_except (e : exn) : json :=
  match e with
  | HTTPStatusError status _ =>
      JObj [
        ("success", JBool false);
        ("error", JStr ("SerpAPI request failed: " +:+ pretty status));
        ("hotels", JArr [])]
  | _ =>
      JObj [
        ("success", JBool false);
        ("error", JStr ("Failed to search hotels: " +:+ str_exn e));
        ("hotels", JArr [])]
  end.

(** What a [try] block makes of the upstream's reaction. *)
Definition absorb (try : upstream_response → result json) (except : exn → json)
    (r : reply) : json :=
  match r with
  | Unanswered cls text => except (PyError cls text)
  | Answered response =>
      match try response with
      | Ok res => res
      | Raise e => except e
      end
  end.

Definition called (w : World) (req : request) : World :=
  {| tasks := tasks w; sent := sent w ++ [req] |}.

Definition search_not_configured : json :=
  JObj [
    ("success", JBool false);
    ("error", JStr "SerpAPI API key not configured. Please set SERPAPI_API_KEY environment variable.");
    ("hotels", JArr [])].

Lemma search_hotels_live_dict (d : dict) (w : World) :
  search_hotels_live SERPAPI_API_KEY py_repr env (JObj d) w =
  if String.eqb SERPAPI_API_KEY "" then (Ok search_not_configured, w)
  else (Ok (absorb (search_try d) search_except (upstream env (search_query d))),
        called w (search_query d)).
Proof.
  unfold search_hotels_live. cbn [py_get py_truthy].
  unfold absorb, search_try, search_query, called, check_in_of, check_out_of,
    date_or, arg.
  run_M.
  destruct (String.eqb SERPAPI_API_KEY ""); [reflexivity|]. cbn [negb].
  destruct (upstream env _) as [response|cls text]; [|reflexivity].
  destruct (raise_for_status response) as [[]|e]; [|by destruct e].
  destruct (response_json_of response) as [data|e]; [|by destruct e].
  destruct (py_keys data) as [ks|e]; [|by destruct e].
  destruct (py_get data "properties" (JArr [])) as [properties|e]; [|by destruct e].
  destruct (py_len properties) as [n|e]; [|by destruct e].
  destruct (py_slice properties 10) as [props|e]; [|by destruct e].
  destruct (transform _ _ _ _ props []) as [hotels|e]; [|by destruct e].
  reflexivity.
Qed.

(** A parameter value that is not an object raises before the [try]. *)
Lemma search_hotels_live_not_dict (params : json) (w : World) :
  is_dict params = false →
  search_hotels_live SERPAPI_API_KEY py_repr env params w =
  (Raise (AttributeError params "get"), w).
Proof. by destruct params. Qed.

Definition details_query (d : dict) : request :=
  Request SERPAPI_BASE_URL [
    ("engine", JStr "google_hotels");
    ("property_token", arg d "propertyToken" (JStr ""));
    ("check_in_date", check_in_of env d);
    ("check_out_date", check_out_of env d);
    ("api_key", JStr SERPAPI_API_KEY);
    ("hl", JStr "en");
    ("gl", JStr "us")].

(** Lines 379-396 as a function of the response. *)
Definition details_try (response : upstream_response) : result json :=
  _ ← raise_for_status response;
  data ← response_json_of response;
  _ ← py_keys data;
  Ok (JObj [
    ("success", JBool true);
    ("hotel", data);
    ("source", JStr "Google Hotels via SerpAPI")]).

(** Lines 398-403: the only [except] clause. *)
Definition details_except (e : exn) : json :=
  JObj [
    ("success", JBool false);
    ("error", JStr ("Failed to get hotel details: " +:+ str_exn e))].

Definition failure (message : string) : json :=
  JObj [("success", JBool false); ("error", JStr message)].

Lemma get_hotel_details_dict (d : dict) (w : World) :
  get_hotel_details SERPAPI_API_KEY env (JObj d) w =
  if negb (py_truthy (arg d "propertyToken" (JStr ""))) then
    (Ok (failure "Property token is required"), w)
  else if String.eqb SERPAPI_API_KEY "" then
    (Ok (failure "SerpAPI API key not configured"), w)
  else (Ok (absorb details_try details_except (upstream env (details_query d))),
        called w (details_query d)).
Proof.
  unfold get_hotel_details. cbn [py_get py_truthy].
  unfold absorb, details_try, details_query, called, check_in_of, check_out_of,
    date_or, arg, failure.
  run_M.
  destruct (negb (py_truthy (default (JStr "") (dict_get "propertyToken" d))));
    [reflexivity|].
  destruct (String.eqb SERPAPI_API_KEY ""); [reflexivity|]. cbn [negb].
  destruct (upstream env _) as [response|cls text]; [|reflexivity].
  destruct (raise_for_status response) as [[]|e]; [|reflexivity].
  destruct (response_json_of response) as [data|e]; [|reflexivity].
  destruct (py_keys data) as [ks|e]; reflexivity.
Qed.

Lemma get_hotel_details_not_dict (params : json) (w : World) :
  is_dict params = false →
  get_hotel_details SERPAPI_API_KEY env params w =
  (Raise (AttributeError params "get"), w).
Proof. by destruct params. Qed.

End Skills.

(** ** Missing credential (lines 184-190 and 346-351) *)

(** A request environment with no network, and the world at start-up. *)
Definition offline : Env := {|
  now_plus_days := λ n, if (n =? 1)%nat then "2026-11-05" else "2026-11-07";
  upstream := λ _, Unanswered "ConnectError" "All connection attempts failed";
  uuid4 := "3f2b8c1e-5d7a-4e0b-9c46-1a2b3c4d5e6f"
|}.

Definition start : World := {| tasks := ∅; sent := [] |}.

(** C4, as stated, fails for [get_hotel_details]: the property token is
    checked before the credential, so without a token the error is about
    the token and does not mention the missing configuration. *)
Lemma details_without_token_blames_token :
  get_hotel_details "" offline (JObj []) start =
  (Ok (JObj [("success", JBool false); ("error", JStr "Property token is required")]),
   start).
Proof. reflexivity. Qed.

(** C4, amended: with no credential configured, [search_hotels_live]
    returns success=false with the "not configured" error, and
    [get_hotel_details] returns success=false with the "not configured"
    error when a property token was given and with "Property token is
    required" otherwise; neither makes an outbound call (the world is
    returned unchanged). *)
Theorem missing_credential_fails_without_call (py_repr : json → string) (env : Env)
    (d : dict) (w : World) :
  search_hotels_live "" py_repr env (JObj d) w =
    (Ok (JObj [
       ("success", JBool false);
       ("error", JStr "SerpAPI API key not configured. Please set SERPAPI_API_KEY environment variable.");
       ("hotels", JArr [])]), w) ∧
  get_hotel_details "" env (JObj d) w =
    (Ok (JObj [
       ("success", JBool false);
       ("error", JStr (if py_truthy (arg d "propertyToken" (JStr ""))
                       then "SerpAPI API key not configured"
                       else "Property token is required"))]), w).
Proof.
  split.
  - by rewrite search_hotels_live_dict.
  - rewrite get_hotel_details_dict.
    by destruct (py_truthy (arg d "propertyToken" (JStr ""))).
Qed.

(** ** Failures are absorbed (lines 310-324 and 398-403) *)

Definition reports_success (res : json) : Prop :=
  py_get res "success" JNull = Ok (JBool true).

Definition reports_failure (res : json) (message : string) : Prop :=
  py_get res "success" JNull = Ok (JBool false) ∧
  py_get res "error" JNull = Ok (JStr message).

(** The decimal status code occurs in the message. *)
Definition carries_status (message : string) (status : Z) : Prop :=
  ∃ before after, message = before +:+ pretty status +:+ after.

Definition is_success (r : upstream_response) : bool :=
  (200 <=? status_code r) && (status_code r <=? 299).

(** The upstream outcomes that are failures: no response at all (timeout,
    connection failure), a status outside 2xx, a body that is not JSON. *)
Definition upstream_failed (r : reply) : Prop :=
  match r with
  | Unanswered _ _ => True
  | Answered response =>
      is_success response = false ∨ ∃ text, response_json response = inl text
  end.

Lemma string_app_nil_r (s : string) : s +:+ "" = s.
Proof.
  induction s as [|c s IH]; [done|].
  change (String c (s +:+ "") = String c s). by rewrite IH.
Qed.

Lemma string_app_assoc (s t u : string) : (s +:+ t) +:+ u = s +:+ t +:+ u.
Proof.
  induction s as [|c s IH]; [done|].
  change (String c ((s +:+ t) +:+ u) = String c (s +:+ t +:+ u)). by rewrite IH.
Qed.

Lemma raise_for_status_failure (r : upstream_response) :
  is_success r = false →
  raise_for_status r = Raise (HTTPStatusError (status_code r) (status_message r)).
Proof. unfold raise_for_status, is_success. by intros ->. Qed.

Lemma status_message_carries_status (before : string) (r : upstream_response) :
  carries_status (before +:+ status_message r) (status_code r).
Proof.
  exists (before +:+ error_type (status_code r) +:+ " '"),
    (" " +:+ reason_phrase r +:+ "' for url '" +:+ response_url r +:+ "'" +:+
     status_note r).
  unfold status_message. by rewrite !string_app_assoc.
Qed.

Lemma search_try_cases (env : Env) (d : dict) (r : upstream_response) :
  (∃ res, search_try env d r = Ok res ∧ reports_success res) ∨
  (∃ e, search_try env d r = Raise e).
Proof.
  unfold search_try. repeat (case_bind; [|by eauto]).
  left. eexists. split; reflexivity.
Qed.

Lemma search_except_failure (e : exn) : ∃ message, reports_failure (search_except e) message.
Proof. destruct e; eexists; split; reflexivity. Qed.

Lemma details_try_cases (r : upstream_response) :
  (∃ res, details_try r = Ok res ∧ reports_success res) ∨
  (∃ e, details_try r = Raise e).
Proof.
  unfold details_try. repeat (case_bind; [|by eauto]).
  left. eexists. split; reflexivity.
Qed.

Lemma search_try_failed (env : Env) (d : dict) (r : upstream_response) :
  upstream_failed (Answered r) → ∃ e, search_try env d r = Raise e.
Proof.
  intros [Hstatus|[text Hbody]]; unfold search_try.
  - rewrite (raise_for_status_failure _ Hstatus). eauto.
  - destruct (raise_for_status r) as [[]|e]; [|eauto].
    unfold response_json_of. rewrite Hbody. eauto.
Qed.

Lemma details_try_failed (r : upstream_response) :
  upstream_failed (Answered r) → ∃ e, details_try r = Raise e.
Proof.
  intros [Hstatus|[text Hbody]]; unfold details_try.
  - rewrite (raise_for_status_failure _ Hstatus). eauto.
  - destruct (raise_for_status r) as [[]|e]; [|eauto].
    unfold response_json_of. rewrite Hbody. eauto.
Qed.

Lemma details_except_failure (e : exn) :
  reports_failure (details_except e) ("Failed to get hotel details: " +:+ str_exn e).
Proof. split; reflexivity. Qed.

Lemma failure_reports (message : string) : reports_failure (failure message) message.
Proof. split; reflexivity. Qed.

Lemma not_empty_eqb (s : string) : s ≠ "" → String.eqb s "" = false.
Proof. intros Hs. by apply String.eqb_neq. Qed.

(** C5, as stated, fails: "every input" includes parameters that are
    not an object, and both skills call [params.get] before their [try]
    (lines 169 and 335), so a string for parameters raises
    [AttributeError] to the caller. *)
Lemma skills_raise_on_parameters_that_are_no_object :
  search_hotels_live "key" (λ _, "") offline (JStr "Paris") start =
    (Raise (AttributeError (JStr "Paris") "get"), start) ∧
  get_hotel_details "key" offline (JStr "ChIJ") start =
    (Raise (AttributeError (JStr "ChIJ") "get"), start).
Proof. split; reflexivity. Qed.

(** C5, amended: on every parameter object and whatever the upstream
    does, both skills return a result instead of raising; the result says
    success=true, or success=false with an error message; it says
    success=false whenever the upstream was called and failed (no
    response, a status outside 2xx, a body that is not JSON); and after a
    status outside 2xx the error message contains the status code. *)
Theorem skills_absorb_upstream_failures (SERPAPI_API_KEY : string)
    (py_repr : json → string) (env : Env) (d : dict) (w : World) :
  (∃ res w',
     search_hotels_live SERPAPI_API_KEY py_repr env (JObj d) w = (Ok res, w') ∧
     (reports_success res ∨ ∃ message, reports_failure res message) ∧
     (SERPAPI_API_KEY ≠ "" →
      upstream_failed (upstream env (search_query SERPAPI_API_KEY py_repr env d)) →
      ∃ message, reports_failure res message) ∧
     (SERPAPI_API_KEY ≠ "" →
      ∀ r, upstream env (search_query SERPAPI_API_KEY py_repr env d) = Answered r →
           is_success r = false →
           ∃ message, reports_failure res message ∧
                      carries_status message (status_code r))) ∧
  (∃ res w',
     get_hotel_details SERPAPI_API_KEY env (JObj d) w = (Ok res, w') ∧
     (reports_success res ∨ ∃ message, reports_failure res message) ∧
     (SERPAPI_API_KEY ≠ "" → py_truthy (arg d "propertyToken" (JStr "")) = true →
      upstream_failed (upstream env (details_query SERPAPI_API_KEY env d)) →
      ∃ message, reports_failure res message) ∧
     (SERPAPI_API_KEY ≠ "" → py_truthy (arg d "propertyToken" (JStr "")) = true →
      ∀ r, upstream env (details_query SERPAPI_API_KEY env d) = Answered r →
           is_success r = false →
           ∃ message, reports_failure res message ∧
                      carries_status message (status_code r))).
Proof.
  split.
  - rewrite search_hotels_live_dict.
    destruct (String.eqb SERPAPI_API_KEY "") eqn:Hkey.
    { apply String.eqb_eq in Hkey. do 2 eexists. split; [reflexivity|].
      split; [right; eexists; split; reflexivity|]. by split; intros []. }
    do 2 eexists. split; [reflexivity|].
    destruct (upstream env _) as [r|cls text]; cbn [absorb].
    + split; [|split].
      * destruct (search_try_cases env d r) as [(res & -> & Hres)|[e ->]];
          [by left | right; apply search_except_failure].
      * intros _ Hfailed. destruct (search_try_failed env d r Hfailed) as [e ->].
        apply search_except_failure.
      * intros _ r' [= <-] Hstatus. unfold search_try.
        rewrite (raise_for_status_failure _ Hstatus). cbn [mbind result_bind].
        eexists. split; [split; reflexivity|].
        exists "SerpAPI request failed: ", "". by rewrite string_app_nil_r.
    + split; [|split].
      * right. eexists. split; reflexivity.
      * intros _ _. eexists. split; reflexivity.
      * by intros _ r [=].
  - rewrite get_hotel_details_dict.
    destruct (py_truthy (arg d "propertyToken" (JStr ""))) eqn:Htoken; cbn [negb].
    2:{ do 2 eexists. split; [reflexivity|].
        split; [right; eexists; apply failure_reports|]. by split; intros ? [=]. }
    destruct (String.eqb SERPAPI_API_KEY "") eqn:Hkey.
    { apply String.eqb_eq in Hkey. do 2 eexists. split; [reflexivity|].
      split; [right; eexists; apply failure_reports|]. by split; intros []. }
    do 2 eexists. split; [reflexivity|].
    destruct (upstream env _) as [r|cls text]; cbn [absorb].
    + split; [|split].
      * destruct (details_try_cases r) as [(res & -> & Hres)|[e ->]];
          [by left | right; eexists; apply details_except_failure].
      * intros _ _ Hfailed. destruct (details_try_failed r Hfailed) as [e ->].
        eexists. apply details_except_failure.
      * intros _ _ r' [= <-] Hstatus. unfold details_try.
        rewrite (raise_for_status_failure _ Hstatus). cbn [mbind result_bind].
        eexists. split; [apply details_except_failure|].
        apply status_message_carries_status.
    + split; [|split].
      * right. eexists. apply details_except_failure.
      * intros _ _ _. eexists. apply details_except_failure.
      * by intros _ _ r [=].
Qed.

(** ** Normalisation (lines 237-289) *)

Ltac case_bind_in H :=
  cbn [mbind result_bind py_get py_setitem dict_set String.eqb Ascii.eqb Bool.eqb] in H;
  match type of H with
  | context [@mbind result _ _ _ _ ?m] =>
      destruct m as [?|?] eqn:?; [|discriminate H]
  end;
  cbn [mbind result_bind py_get py_setitem dict_set String.eqb Ascii.eqb Bool.eqb] in H.

(** The shape of every record [make_hotel] returns. *)
Definition hotel_record (currency check_in check_out : json) (d : dict)
    (latitude longitude images price per_night total : json) : json :=
  JObj [
    ("name", arg d "name" (JStr "Unknown"));
    ("description", arg d "description" (JStr ""));
    ("propertyToken", arg d "property_token" (JStr ""));
    ("rating", arg d "overall_rating" JNull);
    ("reviewCount", arg d "reviews" JNull);
    ("stars", arg d "hotel_class" JNull);
    ("price", price);
    ("pricePerNight", per_night);
    ("totalPrice", total);
    ("currency", currency);
    ("location", JObj [
       ("address", arg d "address" (JStr ""));
       ("neighborhood", arg d "neighborhood" (JStr ""));
       ("latitude", latitude);
       ("longitude", longitude)]);
    ("amenities", arg d "amenities" (JArr []));
    ("images", images);
    ("checkIn", check_in);
    ("checkOut", check_out)].

Lemma make_hotel_inv (cur ci co prop h : json) :
  make_hotel cur ci co prop = Ok h →
  ∃ d latitude longitude images price per_night total,
    prop = JObj d ∧ hotel_images prop = Ok images ∧
    h = hotel_record cur ci co d latitude longitude images price per_night total.
Proof.
  intros H. destruct prop as [| | | | | |d]; try discriminate.
  unfold make_hotel in H. cbn [py_get mbind result_bind] in H.
  case_bind_in H. case_bind_in H.
  destruct (py_get _ "latitude" JNull) as [latitude|] eqn:Hlat; [|discriminate H].
  cbn [mbind result_bind] in H.
  destruct (py_get _ "longitude" JNull) as [longitude|] eqn:Hlong; [|discriminate H].
  cbn [mbind result_bind] in H.
  destruct (hotel_images (JObj d)) as [images|] eqn:Himages; [|discriminate H].
  cbn [mbind result_bind] in H.
  match type of H with
  | context [@mbind result _ _ _ _ ?m] =>
      assert (∃ price per_night,
                m = Ok (hotel_record cur ci co d latitude longitude images
                          price per_night JNull)) as (price & per_night & Hrate)
  end.
  { destruct (py_truthy (default JNull (dict_get "rate_per_night" d))).
    - destruct (py_get (default JNull (dict_get "rate_per_night" d))
                  "extracted_lowest" JNull) as [extracted|];
        cbn [mbind result_bind py_setitem dict_set String.eqb Ascii.eqb Bool.eqb]
          in H |- *; [|discriminate H].
      destruct (py_get _ "lowest" (JStr "")) as [lowest|];
        cbn [mbind result_bind py_setitem dict_set String.eqb Ascii.eqb Bool.eqb]
          in H |- *; [|discriminate H].
      by do 2 eexists.
    - by do 2 eexists. }
  rewrite Hrate in H. cbn [mbind result_bind] in H.
  destruct (py_truthy (default JNull (dict_get "total_rate" d))).
  - case_bind_in H. injection H as <-. by do 7 eexists.
  - injection H as <-. by do 7 eexists.
Qed.

(** The rating a property carries upstream, and the one its record
    carries. *)
Definition rating_of (prop : json) : json :=
  match prop with
  | JObj d => arg d "overall_rating" JNull
  | _ => JNull
  end.

Definition hotel_rating (hotel : json) : json :=
  match hotel with
  | JObj d => arg d "rating" JNull
  | _ => JNull
  end.

(** The rating filter in the words of the code: a record is skipped when
    a minimum was asked for, the record has a rating, and the rating is
    below the minimum; "asked for" and "has" are Python truthiness, so
    [null], 0 and 0.0 count as missing. *)
Definition skipped (min_rating rating : json) : bool :=
  py_truthy min_rating && py_truthy rating &&
  match py_lt rating min_rating with
  | Ok below => below
  | Raise _ => false
  end.

Lemma make_hotel_rating (cur ci co prop h : json) :
  make_hotel cur ci co prop = Ok h → hotel_rating h = rating_of prop.
Proof.
  intros (d & ? & ? & ? & ? & ? & ? & -> & _ & ->)%make_hotel_inv. reflexivity.
Qed.

Lemma rating_filter_skipped (cur ci co prop h min_rating : json) (skip : bool) :
  make_hotel cur ci co prop = Ok h →
  rating_filter min_rating h = Ok skip → skip = skipped min_rating (hotel_rating h).
Proof.
  intros (d & ? & ? & ? & ? & ? & ? & -> & _ & ->)%make_hotel_inv.
  unfold rating_filter, skipped.
  cbn [hotel_rating hotel_record py_getitem dict_get String.eqb Ascii.eqb Bool.eqb
       mbind result_bind].
  change (default JNull (Some (arg d "overall_rating" JNull)))
    with (arg d "overall_rating" JNull).
  change (arg _ "rating" JNull) with (arg d "overall_rating" JNull).
  destruct (py_truthy min_rating); [|by intros [= <-]].
  destruct (py_truthy (arg d "overall_rating" JNull)); [|by intros [= <-]].
  cbn [andb]. by intros ->.
Qed.

(** The loop appends, in order, the records it does not skip. *)
Lemma transform_filter (min_rating cur ci co : json) (props hotels hs : list json) :
  transform min_rating cur ci co props hotels = Ok hs →
  ∃ recs,
    mapM (make_hotel cur ci co) props = Ok recs ∧
    hs = (hotels ++ filter (λ h, skipped min_rating (hotel_rating h) = false) recs)%list.
Proof.
  revert hotels. induction props as [|prop props IH]; intros hotels H.
  - injection H as <-. exists []. by rewrite app_nil_r.
  - cbn [transform] in H.
    destruct (make_hotel cur ci co prop) as [h|] eqn:Hh; [|discriminate H].
    cbn [mbind result_bind] in H.
    destruct (rating_filter min_rating h) as [skip|] eqn:Hskip; [|discriminate H].
    cbn [mbind result_bind] in H.
    apply IH in H as (recs & Hrecs & ->).
    apply (rating_filter_skipped _ _ _ _ _ _ _ Hh) in Hskip as ->.
    exists (h :: recs). split.
    { cbn [mapM]. rewrite Hh, Hrecs. reflexivity. }
    rewrite filter_cons.
    destruct (skipped min_rating (hotel_rating h)) eqn:Hs.
    + by rewrite decide_False.
    + rewrite decide_True by done. by rewrite <- app_assoc.
Qed.

Lemma mapM_result_length {A B : Type} (f : A → result B) (l : list A) (k : list B) :
  mapM f l = Ok k → length k = length l.
Proof.
  revert k. induction l as [|x l IH]; intros k H.
  - by injection H as <-.
  - cbn [mapM] in H. destruct (f x) as [y|]; [|discriminate H].
    cbn [mbind result_bind] in H. destruct (mapM f l) as [k'|]; [|discriminate H].
    injection H as <-. cbn. by rewrite (IH k').
Qed.

Lemma mapM_result_Forall2 {A B : Type} (f : A → result B) (l : list A) (k : list B) :
  mapM f l = Ok k → Forall2 (λ x y, f x = Ok y) l k.
Proof.
  revert k. induction l as [|x l IH]; intros k H.
  - injection H as <-. constructor.
  - cbn [mapM] in H. destruct (f x) as [y|] eqn:Hy; [|discriminate H].
    cbn [mbind result_bind] in H. destruct (mapM f l) as [k'|]; [|discriminate H].
    injection H as <-. constructor; auto.
Qed.

Lemma transform_complete (min_rating cur ci co : json) (props hotels recs : list json) :
  mapM (make_hotel cur ci co) props = Ok recs →
  Forall (λ h, ∃ skip, rating_filter min_rating h = Ok skip) recs →
  transform min_rating cur ci co props hotels =
  Ok (hotels ++ filter (λ h, skipped min_rating (hotel_rating h) = false) recs)%list.
Proof.
  revert hotels recs. induction props as [|prop props IH]; intros hotels recs Hrecs Hcmp.
  - injection Hrecs as <-. cbn. by rewrite app_nil_r.
  - cbn [mapM] in Hrecs.
    destruct (make_hotel cur ci co prop) as [h|] eqn:Hh; [|discriminate Hrecs].
    cbn [mbind result_bind] in Hrecs.
    destruct (mapM (make_hotel cur ci co) props) as [recs'|]; [|discriminate Hrecs].
    injection Hrecs as <-. apply Forall_cons in Hcmp as [[skip Hskip] Hcmp].
    cbn [transform]. rewrite Hh. cbn [mbind result_bind]. rewrite Hskip.
    cbn [mbind result_bind]. rewrite (IH _ recs') by done.
    apply (rating_filter_skipped _ _ _ _ _ _ _ Hh) in Hskip as ->.
    rewrite filter_cons. destruct (skipped min_rating (hotel_rating h)) eqn:Hs.
    + by rewrite decide_False.
    + rewrite decide_True by done. by rewrite <- app_assoc.
Qed.

Lemma skipped_true (min_rating rating : json) :
  skipped min_rating rating = true ↔
  py_truthy min_rating = true ∧ py_truthy rating = true ∧
  py_lt rating min_rating = Ok true.
Proof.
  unfold skipped. destruct (py_truthy min_rating), (py_truthy rating); cbn [andb];
    try (split; [discriminate | by intros (? & ? & ?)]).
  destruct (py_lt rating min_rating) as [[]|]; split; try done;
    try discriminate; by intros (_ & _ & ?).
Qed.

(** C2, as stated, fails: a record whose rating is 0 has a rating that
    is not null and is below the minimum 4.0, and the filter keeps it. *)
Lemma zero_rating_survives_filter :
  py_lt (JInt 0) (JFloat (FFin (4 # 1))) = Ok true ∧
  ∃ h, transform (JFloat (FFin (4 # 1))) (JStr "USD") (JStr "2026-11-05")
         (JStr "2026-11-07")
         [JObj [("name", JStr "Hostel"); ("overall_rating", JInt 0)]] [] = Ok [h] ∧
       hotel_rating h = JInt 0.
Proof. split; [reflexivity|]. eexists. split; reflexivity. Qed.

(** C2, amended: when normalisation completes, the hotels returned are
    the records of the properties, in order, without those the filter
    skips; a record is skipped exactly when the requested minimum is
    truthy (not null, not zero), the record's rating is truthy (not
    null, not zero) and the rating is strictly less than the minimum; a
    record whose rating is absent or null is always kept. *)
Theorem rating_filter_skips_rated_below_minimum (min_rating cur ci co : json)
    (props hs : list json) :
  transform min_rating cur ci co props [] = Ok hs →
  ∃ recs,
    Forall2 (λ prop h, make_hotel cur ci co prop = Ok h ∧
                       hotel_rating h = rating_of prop) props recs ∧
    hs = filter (λ h, skipped min_rating (hotel_rating h) = false) recs ∧
    (∀ h, skipped min_rating (hotel_rating h) = true ↔
          py_truthy min_rating = true ∧ py_truthy (hotel_rating h) = true ∧
          py_lt (hotel_rating h) min_rating = Ok true) ∧
    (∀ h, h ∈ recs → hotel_rating h = JNull → h ∈ hs).
Proof.
  intros (recs & Hrecs & ->)%transform_filter. exists recs.
  split; [|split; [done|split]].
  - apply mapM_result_Forall2 in Hrecs.
    eapply Forall2_impl; [exact Hrecs|]. intros prop h Hh.
    split; [done | by apply (make_hotel_rating cur ci co)].
  - intros h. apply skipped_true.
  - intros h Hin Hnull. apply list_elem_of_filter. split; [|done].
    rewrite Hnull. unfold skipped. by rewrite andb_false_r.
Qed.

(** The specification's example: minimum 4.0 and ratings 4.5, 3.0 and
    none. *)
Definition example_ratings : list json := [
  JObj [("name", JStr "A"); ("overall_rating", JFloat (FFin (9 # 2)))];
  JObj [("name", JStr "B"); ("overall_rating", JFloat (FFin (3 # 1)))];
  JObj [("name", JStr "C")]].

Lemma rating_filter_witness :
  ∃ hs,
    transform (JFloat (FFin (4 # 1))) (JStr "USD") (JStr "2026-11-05")
      (JStr "2026-11-07") example_ratings [] = Ok hs ∧
    (λ h, py_getitem h "name") <$> hs = [Ok (JStr "A"); Ok (JStr "C")] ∧
    ∃ recs,
      Forall2 (λ prop h, make_hotel (JStr "USD") (JStr "2026-11-05")
                           (JStr "2026-11-07") prop = Ok h ∧
                         hotel_rating h = rating_of prop) example_ratings recs ∧
      hs = filter (λ h, skipped (JFloat (FFin (4 # 1))) (hotel_rating h) = false) recs ∧
      (∀ h, skipped (JFloat (FFin (4 # 1))) (hotel_rating h) = true ↔
            py_truthy (JFloat (FFin (4 # 1))) = true ∧
            py_truthy (hotel_rating h) = true ∧
            py_lt (hotel_rating h) (JFloat (FFin (4 # 1))) = Ok true) ∧
      (∀ h, h ∈ recs → hotel_rating h = JNull → h ∈ hs).
Proof.
  eexists. split; [reflexivity|]. split; [reflexivity|].
  apply rating_filter_skips_rated_below_minimum. reflexivity.
Defined.

(** ** At most ten records, in upstream order *)

Lemma search_success_inv (SERPAPI_API_KEY : string) (py_repr : json → string)
    (env : Env) (d : dict) (w w' : World) (res : json) :
  search_hotels_live SERPAPI_API_KEY py_repr env (JObj d) w = (Ok res, w') →
  reports_success res →
  ∃ r, upstream env (search_query SERPAPI_API_KEY py_repr env d) = Answered r ∧
       search_try env d r = Ok res.
Proof.
  rewrite search_hotels_live_dict. intros Hrun Hres.
  destruct (String.eqb SERPAPI_API_KEY ""); [by injection Hrun as <- <-|].
  injection Hrun as <- <-.
  destruct (upstream env _) as [r|cls text]; [|discriminate Hres].
  exists r. split; [done|]. cbn [absorb] in Hres |- *.
  destruct (search_try env d r) as [res|e]; [done|].
  by destruct e.
Qed.

(** C6: when a search succeeds on an upstream document whose property
    list is [items], the hotels it returns are the records of the first
    ten entries of [items], each fully extracted, in upstream order and
    without the ones the rating filter skips; there are at most ten. *)
Theorem search_returns_first_ten_in_order (SERPAPI_API_KEY : string)
    (py_repr : json → string) (env : Env) (d : dict) (w w' : World)
    (res data : json) (r : upstream_response) (items : list json) :
  search_hotels_live SERPAPI_API_KEY py_repr env (JObj d) w = (Ok res, w') →
  reports_success res →
  upstream env (search_query SERPAPI_API_KEY py_repr env d) = Answered r →
  response_json r = inr data →
  py_get data "properties" (JArr []) = Ok (JArr items) →
  ∃ recs hotels,
    mapM (make_hotel (arg d "currency" (JStr "USD")) (check_in_of env d)
            (check_out_of env d)) (take 10 items) = Ok recs ∧
    hotels = filter (λ h, skipped (arg d "minRating" JNull) (hotel_rating h) = false)
               recs ∧
    py_get res "hotels" JNull = Ok (JArr hotels) ∧
    py_get res "hotelCount" JNull = Ok (JInt (Z.of_nat (length hotels))) ∧
    sublist hotels recs ∧
    (length hotels ≤ 10)%nat.
Proof.
  intros Hrun Hres Hup Hbody Hprops.
  destruct (search_success_inv _ _ _ _ _ _ _ Hrun Hres) as (r' & Hup' & Htry).
  rewrite Hup in Hup'. injection Hup' as <-.
  unfold search_try in Htry.
  destruct (raise_for_status r) as [[]|]; [|discriminate Htry].
  unfold response_json_of in Htry. rewrite Hbody in Htry.
  cbn [mbind result_bind] in Htry.
  destruct (py_keys data) as [ks|]; [|discriminate Htry].
  cbn [mbind result_bind] in Htry. rewrite Hprops in Htry.
  cbn [mbind result_bind py_len py_slice] in Htry.
  destruct (transform _ _ _ _ (take 10 items) []) as [hotels|] eqn:Hloop;
    [|discriminate Htry].
  injection Htry as <-.
  apply transform_filter in Hloop as (recs & Hrecs & ->). cbn [app].
  exists recs, (filter (λ h, skipped (arg d "minRating" JNull) (hotel_rating h) = false)
                  recs).
  repeat split; try done.
  - apply sublist_filter.
  - etrans; [apply length_filter|]. rewrite (mapM_result_length _ _ _ Hrecs).
    rewrite length_take. lia.
Qed.

(** Twelve properties rated 1.0, 1.5, ..., 6.5, and an upstream that
    answers every query with them. *)
Definition twelve_properties : list json :=
  (λ n : nat,
     JObj [("name", JStr (pretty n));
           ("overall_rating", JFloat (FFin (Z.of_nat (n + 2) # 2)))]) <$> seq 0 12.

Definition answering (data : json) : Env := {|
  now_plus_days := now_plus_days offline;
  upstream := λ req,
    Answered (UpstreamResponse 200 "OK" (req_url req) "" (inr data));
  uuid4 := uuid4 offline
|}.

Lemma search_first_ten_witness :
  ∃ res w',
    search_hotels_live "key" (λ _, "") (answering (JObj [("properties", JArr twelve_properties)]))
      (JObj [("destination", JStr "Paris"); ("minRating", JInt 2)]) start = (Ok res, w') ∧
    ∃ recs hotels,
      mapM (make_hotel (JStr "USD") (JStr "2026-11-05") (JStr "2026-11-07"))
        (take 10 twelve_properties) = Ok recs ∧
      hotels = filter (λ h, skipped (JInt 2) (hotel_rating h) = false) recs ∧
      py_get res "hotels" JNull = Ok (JArr hotels) ∧
      py_get res "hotelCount" JNull = Ok (JInt (Z.of_nat (length hotels))) ∧
      sublist hotels recs ∧
      (length hotels ≤ 10)%nat.
Proof.
  do 2 eexists. split; [vm_compute; reflexivity|].
  eapply (search_returns_first_ten_in_order "key" (λ _, "")
            (answering (JObj [("properties", JArr twelve_properties)]))
            [("destination", JStr "Paris"); ("minRating", JInt 2)] start);
    [vm_compute; reflexivity | reflexivity | reflexivity | reflexivity | reflexivity].
Defined.

(** Of the twelve, the first ten are looked at and the two rated below
    2 are skipped: eight hotels come back, not ten. *)
Example search_first_ten_count :
  ∃ res w',
    search_hotels_live "key" (λ _, "")
      (answering (JObj [("properties", JArr twelve_properties)]))
      (JObj [("destination", JStr "Paris"); ("minRating", JInt 2)]) start = (Ok res, w') ∧
    py_get res "hotelCount" JNull = Ok (JInt 8).
Proof. do 2 eexists. split; [vm_compute; reflexivity | reflexivity]. Qed.

(** ** The JSON-RPC endpoint *)

(** The task object built at lines 480-494. *)
Definition task_object (task_id state : string) (result : json) : json :=
  JObj [
    ("id", JStr task_id);
    ("status", JObj [("state", JStr state)]);
    ("artifacts", JArr [
       JObj [("parts", JArr [
          JObj [("type", JStr "data");
                ("data", result);
                ("mimeType", JStr "application/json")]])]])].

(** [rpc_request.params or {}] *)
Definition params_of (rq : JsonRpcRequest) : dict := default [] (params rq).

Lemma params_or_empty (rq : JsonRpcRequest) :
  py_or (from_option JObj JNull (params rq)) (JObj []) = JObj (params_of rq).
Proof. unfold params_of. by destruct (params rq) as [[|f d]|]. Qed.

(** Lines 457-468: the skill and the parameters a [tasks/send] names. *)
Definition send_inputs (p : dict) : result (json * json) :=
  message ← py_get (JObj p) "message" (JObj []);
  skill_id ← py_get (JObj p) "skillId" (JStr "");
  parts ← py_get message "parts" (JArr []);
  parts ← py_iter parts;
  task_params ← task_params_of parts;
  Ok (skill_id, task_params).

Definition stored (w : World) (k : string) (task : json) : World :=
  {| tasks := <[k := task]> (tasks w); sent := sent w |}.


Section Endpoint.

Variable SERPAPI_API_KEY : string.
Variable py_repr : json → string.

(** A skill never touches the task dictionary, and what it returns is an
    object. *)
Lemma execute_skill_returns (env : Env) (skill_id task_params : json)
    (w w' : World) (out : result json) :
  execute_skill SERPAPI_API_KEY py_repr env skill_id task_params w = (out, w') →
  tasks w' = tasks w ∧ ∀ res, out = Ok res → ∃ d, res = JObj d.
Proof.
  unfold execute_skill.
  destruct (py_eq skill_id (JStr "search-hotels-live")).
  { destruct (is_dict task_params) eqn:Hd.
    - apply is_dict_true in Hd as [d ->]. rewrite search_hotels_live_dict.
      destruct (String.eqb SERPAPI_API_KEY ""); intros [= <- <-];
        (split; [done|]); intros res [= <-]; [by eexists|].
      destruct (upstream env _) as [r|cls text]; cbn [absorb]; [|by eexists].
      unfold search_try. repeat (case_bind; [|by destruct e; eexists]).
      by eexists.
    - rewrite search_hotels_live_not_dict by done. by intros [= <- <-]. }
  destruct (py_eq skill_id (JStr "get-hotel-details")).
  { destruct (is_dict task_params) eqn:Hd.
    - apply is_dict_true in Hd as [d ->]. rewrite get_hotel_details_dict.
      destruct (negb _); [intros [= <- <-]; split; [done|]; intros res [= <-]; by eexists|].
      destruct (String.eqb SERPAPI_API_KEY ""); intros [= <- <-];
        (split; [done|]); intros res [= <-]; [by eexists|].
      destruct (upstream env _) as [r|cls text]; cbn [absorb]; [|by eexists].
      unfold details_try. repeat (case_bind; [|by eexists]).
      by eexists.
    - rewrite get_hotel_details_not_dict by done. by intros [= <- <-]. }
  intros [= <- <-]. split; [done|]. intros res [= <-]. by eexists.
Qed.

(** A [tasks/send] runs the skill, stores the task, and answers with it. *)
Lemma handle_send (env : Env) (rq : JsonRpcRequest) (w : World) :
  method rq = "tasks/send" →
  handle_a2a SERPAPI_API_KEY py_repr env (Valid rq) w =
  match send_inputs (params_of rq) with
  | Raise e => (Raise e, w)
  | Ok (skill_id, task_params) =>
      match execute_skill SERPAPI_API_KEY py_repr env skill_id task_params w with
      | (Raise e, w') => (Raise e, w')
      | (Ok res, w') =>
          let task := task_object (uuid4 env) "completed" res in
          (json_response (create_json_rpc_response (id rq) task),
           stored w' (uuid4 env) task)
      end
  end.
Proof.
  intros Hm. unfold handle_a2a. rewrite Hm, params_or_empty.
  cbn [String.eqb Ascii.eqb Bool.eqb]. unfold send_inputs.
  cbn [py_get]. run_M.
  destruct (py_get (default (JObj []) (dict_get "message" (params_of rq)))
              "parts" (JArr [])) as [parts|]; [|done].
  destruct (py_iter parts) as [ps|]; [|done].
  destruct (task_params_of ps) as [tp|]; [|done].
  destruct (execute_skill _ _ _ _ tp w) as [[res|e] w'] eqn:Hskill; [|done].
  apply execute_skill_returns in Hskill as [_ Hres].
  by destruct (Hres res eq_refl) as [d ->].
Qed.

End Endpoint.

(** Line 518 on one task: [task["status"]["state"] = "canceled"]. *)
Definition cancel_task (task : json) : result json :=
  status ← py_getitem task "status";
  status ← py_setitem status "state" (JStr "canceled");
  py_setitem task "status" status.

Lemma cancel_task_object (k state : string) (res : json) :
  cancel_task (task_object k state res) = Ok (task_object k "canceled" res).
Proof. reflexivity. Qed.

(** The task a [tasks/get] or [tasks/cancel] finds, once its id hashed. *)
Definition lookup_task (w : World) (task_id : json) : option (string * json) :=
  match task_id with
  | JStr k => (λ task, (k, task)) <$> tasks w !! k
  | _ => None
  end.

Definition task_not_found (request_id : json) : result JSONResponse :=
  json_response (create_json_rpc_error request_id (-32000) "Task not found" JNull).

(** Content that [JSONResponse] can render: no NaN, no infinity, no
    lone surrogate. *)
Definition renderable (c : json) : bool := all_finite c && encodable c.

Lemma json_response_renderable (c : json) :
  renderable c = true → json_response c = Ok {| http_status := 200; content := c |}.
Proof.
  unfold renderable, json_response. intros [-> ->]%andb_prop. reflexivity.
Qed.

Lemma json_response_Ok (c : json) (response : JSONResponse) :
  json_response c = Ok response →
  response = {| http_status := 200; content := c |} ∧ renderable c = true.
Proof.
  unfold renderable, json_response.
  destruct (all_finite c); [|discriminate]. destruct (encodable c); [|discriminate].
  by intros [= <-].
Qed.

Lemma renderable_response (request_id result : json) :
  renderable (create_json_rpc_response request_id result) =
  renderable request_id && renderable result.
Proof.
  unfold renderable. cbn.
  destruct (all_finite request_id), (all_finite result), (encodable request_id),
    (encodable result); reflexivity.
Qed.

Lemma renderable_task_not_found (request_id : json) :
  renderable (create_json_rpc_error request_id (-32000) "Task not found" JNull) =
  renderable request_id.
Proof.
  unfold renderable. cbn.
  destruct (all_finite request_id), (encodable request_id); reflexivity.
Qed.

Section Tasks.

Variable SERPAPI_API_KEY : string.
Variable py_repr : json → string.

Lemma handle_invalid (env : Env) (e : exn) (w : World) :
  handle_a2a SERPAPI_API_KEY py_repr env (Invalid e) w =
  (json_response
     (create_json_rpc_error JNull (-32700) ("Parse error: " +:+ str_exn e) JNull),
   w).
Proof. reflexivity. Qed.

Lemma handle_get (env : Env) (rq : JsonRpcRequest) (w : World) :
  method rq = "tasks/get" →
  handle_a2a SERPAPI_API_KEY py_repr env (Valid rq) w =
  let task_id := arg (params_of rq) "id" JNull in
  match py_hashable task_id with
  | Raise e => (Raise e, w)
  | Ok _ =>
      match lookup_task w task_id with
      | Some (_, task) =>
          (json_response (create_json_rpc_response (id rq) task), w)
      | None => (task_not_found (id rq), w)
      end
  end.
Proof.
  intros Hm. unfold handle_a2a. rewrite Hm, params_or_empty.
  cbn [String.eqb Ascii.eqb Bool.eqb py_get]. unfold find_task, lookup_task, arg.
  run_M. destruct (py_hashable _) as [[]|]; [|done].
  by destruct (default JNull _) as [| | | |k| |]; try destruct (tasks w !! k).
Qed.

Lemma handle_cancel (env : Env) (rq : JsonRpcRequest) (w : World) :
  method rq = "tasks/cancel" →
  handle_a2a SERPAPI_API_KEY py_repr env (Valid rq) w =
  let task_id := arg (params_of rq) "id" JNull in
  match py_hashable task_id with
  | Raise e => (Raise e, w)
  | Ok _ =>
      match lookup_task w task_id with
      | Some (k, task) =>
          match cancel_task task with
          | Ok task' =>
              (json_response (create_json_rpc_response (id rq) task'),
               stored w k task')
          | Raise e => (Raise e, w)
          end
      | None => (task_not_found (id rq), w)
      end
  end.
Proof.
  intros Hm. unfold handle_a2a. rewrite Hm, params_or_empty.
  cbn [String.eqb Ascii.eqb Bool.eqb py_get].
  unfold find_task, lookup_task, cancel_task, arg.
  run_M. destruct (py_hashable _) as [[]|]; [|done].
  destruct (default JNull _) as [| | | |k| |]; try done.
  destruct (tasks w !! k) as [task|]; [|done]. cbn [fmap option_fmap option_map].
  destruct (py_getitem task "status") as [status|]; [|done].
  destruct (py_setitem status "state" (JStr "canceled")) as [status'|]; [|done].
  by destruct (py_setitem task "status" status').
Qed.

Lemma handle_unknown_method (env : Env) (rq : JsonRpcRequest) (w : World) :
  method rq ≠ "tasks/send" → method rq ≠ "tasks/get" → method rq ≠ "tasks/cancel" →
  handle_a2a SERPAPI_API_KEY py_repr env (Valid rq) w =
  (json_response
     (create_json_rpc_error (id rq) (-32601)
        ("Method not found: " +:+ method rq) JNull), w).
Proof.
  intros Hs Hg Hc. unfold handle_a2a.
  by rewrite (proj2 (String.eqb_neq _ _) Hs), (proj2 (String.eqb_neq _ _) Hg),
    (proj2 (String.eqb_neq _ _) Hc).
Qed.

(** The four kinds of request. *)
Lemma method_cases (m : string) :
  m = "tasks/send" ∨ m = "tasks/get" ∨ m = "tasks/cancel" ∨
  (m ≠ "tasks/send" ∧ m ≠ "tasks/get" ∧ m ≠ "tasks/cancel").
Proof.
  destruct (decide (m = "tasks/send")); [by left|].
  destruct (decide (m = "tasks/get")); [by right; left|].
  destruct (decide (m = "tasks/cancel")); [by right; right; left|].
  by right; right; right.
Qed.

End Tasks.

(** ** The task store over the life of the process *)

Section Store.

Variable SERPAPI_API_KEY : string.
Variable py_repr : json → string.

(** What the skill returned, when the request is a [tasks/send] whose
    skill ran to the end. *)
Definition skill_return (env : Env) (request : parsed) (w : World) : option json :=
  match request with
  | Valid rq =>
      if String.eqb (method rq) "tasks/send" then
        match send_inputs (params_of rq) with
        | Ok (skill_id, task_params) =>
            match (execute_skill SERPAPI_API_KEY py_repr env skill_id task_params w).1 with
            | Ok res => Some res
            | Raise _ => None
            end
        | Raise _ => None
        end
      else None
  | Invalid _ => None
  end.

(** The worlds the process can be in, each with the record of what the
    skill returned for every task id when that task was created. *)
Inductive reachable : World → gmap string json → Prop :=
| reachable_start : reachable start ∅
| reachable_step (w : World) (returned : gmap string json) (env : Env)
    (request : parsed) :
    reachable w returned →
    reachable (handle_a2a SERPAPI_API_KEY py_repr env request w).2
      (match skill_return env request w with
       | Some res => <[uuid4 env := res]> returned
       | None => returned
       end).

(** Every stored task is a task object under its own id, completed or
    canceled, around what the skill returned. *)
Definition consistent (t returned : gmap string json) : Prop :=
  ∀ k task, t !! k = Some task →
    ∃ state res,
      returned !! k = Some res ∧ task = task_object k state res ∧
      (state = "completed" ∨ state = "canceled").

Lemma consistent_step (env : Env) (request : parsed) (w : World)
    (returned : gmap string json) :
  consistent (tasks w) returned →
  consistent (tasks (handle_a2a SERPAPI_API_KEY py_repr env request w).2)
    (match skill_return env request w with
     | Some res => <[uuid4 env := res]> returned
     | None => returned
     end).
Proof.
  intros Hinv. destruct request as [rq|e]; [|done].
  unfold skill_return.
  destruct (method_cases (method rq)) as [Hm|[Hm|[Hm|(Hs & Hg & Hc)]]].
  - rewrite handle_send, Hm by done. cbn [String.eqb Ascii.eqb Bool.eqb].
    destruct (send_inputs (params_of rq)) as [[skill_id task_params]|]; [|done].
    destruct (execute_skill _ _ _ _ _ w) as [[res|e] w'] eqn:Hskill;
      apply execute_skill_returns in Hskill as [Htasks _]; cbn [fst snd].
    + cbn [stored tasks]. rewrite Htasks. intros k task.
      destruct (decide (uuid4 env = k)) as [<-|Hk].
      * rewrite !lookup_insert_eq. intros [= <-]. eauto 6.
      * rewrite !lookup_insert_ne by done. apply Hinv.
    + by rewrite Htasks.
  - rewrite handle_get, Hm by done. cbn [String.eqb Ascii.eqb Bool.eqb]. cbv zeta.
    destruct (py_hashable _); [|done]. by destruct (lookup_task w _) as [[]|].
  - rewrite handle_cancel, Hm by done. cbn [String.eqb Ascii.eqb Bool.eqb]. cbv zeta.
    destruct (py_hashable _); [|done].
    destruct (lookup_task w _) as [[k task]|] eqn:Hfind; [|done].
    assert (tasks w !! k = Some task) as Hk.
    { unfold lookup_task in Hfind. destruct (arg _ "id" JNull); try done.
      destruct (tasks w !! s) eqn:Hs; by simplify_eq/=. }
    destruct (Hinv k task Hk) as (state & res & Hres & -> & _).
    rewrite cancel_task_object. cbn [snd stored tasks]. intros k' task'.
    destruct (decide (k = k')) as [<-|Hne].
    + rewrite lookup_insert_eq. intros [= <-]. eauto 6.
    + rewrite lookup_insert_ne by done. apply Hinv.
  - rewrite handle_unknown_method by done.
    by rewrite (proj2 (String.eqb_neq _ _) Hs).
Qed.

Lemma reachable_consistent (w : World) (returned : gmap string json) :
  reachable w returned → consistent (tasks w) returned.
Proof.
  induction 1 as [|w returned env request _ IH].
  - intros k task. by rewrite lookup_empty.
  - by apply consistent_step.
Qed.

(** C8: in every reachable state, every stored task has a status state
    that is "completed" or "canceled" and exactly one artifact, whose
    single part is a data part holding what the skill returned when the
    task was created. *)
Theorem stored_tasks_hold_skill_return (w : World) (returned : gmap string json)
    (k : string) (task : json) :
  reachable w returned →
  tasks w !! k = Some task →
  ∃ state res,
    returned !! k = Some res ∧
    (state = "completed" ∨ state = "canceled") ∧
    task = JObj [
      ("id", JStr k);
      ("status", JObj [("state", JStr state)]);
      ("artifacts", JArr [
         JObj [("parts", JArr [
            JObj [("type", JStr "data");
                  ("data", res);
                  ("mimeType", JStr "application/json")]])]])].
Proof.
  intros Hreach Hk.
  destruct (reachable_consistent _ _ Hreach k task Hk) as (state & res & ? & -> & ?).
  by exists state, res.
Qed.

End Store.

(** A request that searches Paris, sent to a process that has just
    started and has no network, and the cancellation of the task it
    creates. *)
Definition send_paris : JsonRpcRequest := {|
  jsonrpc := "2.0";
  id := JInt 1;
  method := "tasks/send";
  params := Some [
    ("skillId", JStr "search-hotels-live");
    ("message", JObj [("parts", JArr [
       JObj [("type", JStr "text"); ("text", JStr "hotels in Paris")];
       JObj [("type", JStr "data"); ("data", JObj [("destination", JStr "Paris")])]])])]
|}.

Definition cancel_paris : JsonRpcRequest := {|
  jsonrpc := "2.0";
  id := JInt 2;
  method := "tasks/cancel";
  params := Some [("id", JStr (uuid4 offline))]
|}.

Definition after_send_paris : World :=
  (handle_a2a "key" (λ _, "") offline (Valid send_paris) start).2.

Definition returned_paris : gmap string json :=
  match skill_return "key" (λ _, "") offline (Valid send_paris) start with
  | Some res => <[uuid4 offline := res]> ∅
  | None => ∅
  end.

Definition failed_paris : json :=
  JObj [
    ("success", JBool false);
    ("error", JStr "Failed to search hotels: All connection attempts failed");
    ("hotels", JArr [])].

Lemma after_send_paris_reachable :
  reachable "key" (λ _, "") after_send_paris returned_paris.
Proof. apply (reachable_step "key" (λ _, "") start ∅), reachable_start. Qed.

Lemma after_send_paris_task :
  tasks after_send_paris !! uuid4 offline =
  Some (task_object (uuid4 offline) "completed" failed_paris).
Proof. vm_compute. reflexivity. Qed.

Lemma stored_tasks_witness :
  ∃ state res,
    returned_paris !! uuid4 offline = Some res ∧
    (state = "completed" ∨ state = "canceled") ∧
    task_object (uuid4 offline) "completed" failed_paris = JObj [
      ("id", JStr (uuid4 offline));
      ("status", JObj [("state", JStr state)]);
      ("artifacts", JArr [
         JObj [("parts", JArr [
            JObj [("type", JStr "data");
                  ("data", res);
                  ("mimeType", JStr "application/json")]])]])].
Proof.
  exact (stored_tasks_hold_skill_return "key" (λ _, "") after_send_paris
           returned_paris (uuid4 offline) _ after_send_paris_reachable
           after_send_paris_task).
Defined.

(** ** [tasks/cancel] *)

Lemma stored_twice (w : World) (k : string) (task : json) :
  stored (stored w k task) k task = stored w k task.
Proof. unfold stored. cbn [tasks sent]. by rewrite insert_insert_eq. Qed.

(** The status of the HTTP response to a request.  A response the
    handler returns carries its own status; an exception that escapes the
    handler is answered by the framework with 500 Internal Server
    Error. *)
Definition http_status_of (out : result JSONResponse) : Z :=
  match out with
  | Ok response => http_status response
  | Raise _ => 500
  end.

(** A [tasks/cancel] of the task created by [send_paris] whose request
    id is NaN, which [json.loads] accepts. *)
Definition cancel_paris_nan : JsonRpcRequest := {|
  jsonrpc := "2.0";
  id := JFloat FNan;
  method := "tasks/cancel";
  params := Some [("id", JStr (uuid4 offline))]
|}.

(** C7, as stated, fails: the task is in the store, and the cancel sets
    its status, but the answer echoes the request id, NaN cannot be
    rendered, and the handler raises [ValueError] instead of returning
    the task: the caller gets a 500 and no task. *)
Lemma cancel_with_nan_id_raises :
  tasks after_send_paris !! uuid4 offline =
    Some (task_object (uuid4 offline) "completed" failed_paris) ∧
  json_response
    (create_json_rpc_response (JFloat FNan)
       (task_object (uuid4 offline) "canceled" failed_paris)) =
    Raise (PyError "ValueError" "Out of range float values are not JSON compliant") ∧
  handle_a2a "key" (λ _, "") offline (Valid cancel_paris_nan) after_send_paris =
    (json_response
       (create_json_rpc_response (JFloat FNan)
          (task_object (uuid4 offline) "canceled" failed_paris)),
     stored after_send_paris (uuid4 offline)
       (task_object (uuid4 offline) "canceled" failed_paris)) ∧
  http_status_of
    (handle_a2a "key" (λ _, "") offline (Valid cancel_paris_nan) after_send_paris).1 =
    500.
Proof. repeat split; vm_compute; reflexivity. Qed.

(** C7, amended: for every task id in the store of a reachable state,
    [tasks/cancel] sets that task's status to "canceled" in the store,
    nothing else changed, and builds its answer from the updated task;
    the answer is returned, with no error, whenever it can be rendered
    (no NaN, infinity or lone surrogate in the request id or the task),
    and otherwise the handler raises after the change.  A second
    [tasks/cancel] has the same outcome and leaves the store as the first
    one left it. *)
Theorem cancel_sets_canceled_and_is_idempotent (SERPAPI_API_KEY : string)
    (py_repr : json → string) (env env' : Env) (rq : JsonRpcRequest) (w : World)
    (returned : gmap string json) (k : string) (task : json) :
  reachable SERPAPI_API_KEY py_repr w returned →
  tasks w !! k = Some task →
  method rq = "tasks/cancel" →
  arg (params_of rq) "id" JNull = JStr k →
  ∃ state res,
    task = task_object k state res ∧
    let canceled := task_object k "canceled" res in
    let answer := create_json_rpc_response (id rq) canceled in
    handle_a2a SERPAPI_API_KEY py_repr env (Valid rq) w =
      (json_response answer, stored w k canceled) ∧
    handle_a2a SERPAPI_API_KEY py_repr env' (Valid rq) (stored w k canceled) =
      (json_response answer, stored w k canceled) ∧
    (renderable answer = true →
     json_response answer = Ok {| http_status := 200; content := answer |}).
Proof.
  intros Hreach Hk Hm Hid.
  destruct (reachable_consistent _ _ _ _ Hreach k task Hk)
    as (state & res & _ & -> & _).
  exists state, res. split; [done|]. cbv zeta. split; [|split].
  - rewrite handle_cancel by done. cbv zeta. rewrite Hid.
    cbn [py_hashable lookup_task]. rewrite Hk. cbn [fmap option_fmap option_map].
    by rewrite cancel_task_object.
  - rewrite handle_cancel by done. cbv zeta. rewrite Hid.
    cbn [py_hashable lookup_task stored tasks]. rewrite lookup_insert_eq.
    cbn [fmap option_fmap option_map]. rewrite cancel_task_object.
    by rewrite stored_twice.
  - apply json_response_renderable.
Qed.

Lemma cancel_witness :
  ∃ state res,
    task_object (uuid4 offline) "completed" failed_paris =
      task_object (uuid4 offline) state res ∧
    let canceled := task_object (uuid4 offline) "canceled" res in
    let answer := create_json_rpc_response (id cancel_paris) canceled in
    handle_a2a "key" (λ _, "") offline (Valid cancel_paris) after_send_paris =
      (json_response answer, stored after_send_paris (uuid4 offline) canceled) ∧
    handle_a2a "key" (λ _, "") offline (Valid cancel_paris)
        (stored after_send_paris (uuid4 offline) canceled) =
      (json_response answer, stored after_send_paris (uuid4 offline) canceled) ∧
    (renderable answer = true →
     json_response answer = Ok {| http_status := 200; content := answer |}).
Proof.
  exact (cancel_sets_canceled_and_is_idempotent "key" (λ _, "") offline offline
           cancel_paris after_send_paris returned_paris (uuid4 offline) _
           after_send_paris_reachable after_send_paris_task eq_refl eq_refl).
Defined.

(** The answer of [cancel_paris] can be rendered, so it is returned,
    both times. *)
Example cancel_paris_returns :
  (handle_a2a "key" (λ _, "") offline (Valid cancel_paris) after_send_paris).1 =
  Ok {| http_status := 200;
        content := create_json_rpc_response (JInt 2)
                     (task_object (uuid4 offline) "canceled" failed_paris) |}.
Proof. vm_compute. reflexivity. Qed.

(** ** HTTP status of the endpoint *)






(** ** Skill parameters of a [tasks/send] (lines 463-468) *)








(** A [tasks/send] with a text part only, to an agent with a credential:
    the search goes upstream with an empty destination. *)
Definition send_text_only : JsonRpcRequest := {|
  jsonrpc := "2.0";
  id := JInt 3;
  method := "tasks/send";
  params := Some [
    ("skillId", JStr "search-hotels-live");
    ("message", JObj [("parts", JArr [
       JObj [("type", JStr "text"); ("text", JStr "any hotel")]])])]
|}.

Example send_text_only_searches_everywhere :
  (λ req, dict_get "q" (req_params req)) <$>
    sent (handle_a2a "key" (λ _, "") offline (Valid send_text_only) start).2
  = [Some (JStr "")].
Proof. vm_compute. reflexivity. Qed.

(** ** The theorems at work on concrete requests *)

(** An upstream that is down for maintenance. *)
Definition unavailable : Env := {|
  now_plus_days := now_plus_days offline;
  upstream := λ req,
    Answered (UpstreamResponse 503 "Service Unavailable" (req_url req) ""
                (inl "Expecting value: line 1 column 1 (char 0)"));
  uuid4 := uuid4 offline
|}.

Lemma skills_absorb_witness :
  (∃ res w',
     search_hotels_live "key" (λ _, "") unavailable
       (JObj [("destination", JStr "Paris")]) start = (Ok res, w') ∧
     ∃ message, reports_failure res message ∧ carries_status message 503) ∧
  (∃ res w',
     get_hotel_details "key" unavailable
       (JObj [("propertyToken", JStr "ChIJ")]) start = (Ok res, w') ∧
     ∃ message, reports_failure res message ∧ carries_status message 503).
Proof.
  destruct (skills_absorb_upstream_failures "key" (λ _, "") unavailable
              [("destination", JStr "Paris")] start)
    as [(res & w' & Hrun & _ & _ & Hstatus) _].
  destruct (skills_absorb_upstream_failures "key" (λ _, "") unavailable
              [("propertyToken", JStr "ChIJ")] start)
    as [_ (res' & w'' & Hrun' & _ & _ & Hstatus')].
  split.
  - exists res, w'. split; [exact Hrun|].
    apply (Hstatus ltac:(discriminate) _ eq_refl eq_refl).
  - exists res', w''. split; [exact Hrun'|].
    apply (Hstatus' ltac:(discriminate) eq_refl _ eq_refl eq_refl).
Defined.

Example unavailable_messages :
  (search_hotels_live "key" (λ _, "") unavailable
     (JObj [("destination", JStr "Paris")]) start).1 =
    Ok (JObj [
      ("success", JBool false);
      ("error", JStr "SerpAPI request failed: 503");
      ("hotels", JArr [])]) ∧
  (get_hotel_details "key" unavailable
     (JObj [("propertyToken", JStr "ChIJ")]) start).1 =
    Ok (JObj [
      ("success", JBool false);
      ("error", JStr "Failed to get hotel details: Server error '503 Service Unavailable' for url 'https://serpapi.com/search'")]).
Proof. split; vm_compute; reflexivity. Qed.

(** An unknown method under a request id that is NaN: the error
    envelope cannot be rendered, and the response is a 500. *)
Example unknown_method_with_nan_id :
  http_status_of
    (handle_a2a "key" (λ _, "") offline
       (Valid {| jsonrpc := "2.0"; id := JFloat FNan; method := "tasks/list";
                 params := None |}) start).1 = 500.
Proof. vm_compute. reflexivity. Qed.

(** A [tasks/get] for an id that was never sent. *)
Definition get_unknown : JsonRpcRequest := {|
  jsonrpc := "2.0";
  id := JStr "q-1";
  method := "tasks/get";
  params := Some [("id", JStr "no-such-task")]
|}.



(** * Further properties of the agent *)

(** ** The discovery document and the health probe *)

(** [AGENT_CARD] (lines 50-129); [port] is [os.getenv('PORT', '8083')]. *)
Definition AGENT_CARD (port : string) : json :=
  JObj [
    ("name", JStr "serpapi-hotel-agent");
    ("description", JStr "A specialized agent for searching real hotel data using Google Hotels via SerpAPI");
    ("url", JStr ("http://localhost:" +:+ port));
    ("version", JStr "1.0.0");
    ("capabilities", JObj [
       ("streaming", JBool false);
       ("pushNotifications", JBool false)]);
    ("skills", JArr [
       JObj [
         ("id", JStr "search-hotels-live");
         ("name", JStr "Search Hotels Live");
         ("description", JStr "Search for real hotels using Google Hotels API. Returns live pricing and availability.");
         ("inputSchema", JObj [
            ("type", JStr "object");
            ("properties", JObj [
               ("destination", JObj [
                  ("type", JStr "string");
                  ("description", JStr "City or destination to search for hotels (e.g., 'Paris', 'New York')")]);
               ("checkInDate", JObj [
                  ("type", JStr "string");
                  ("description", JStr "Check-in date in YYYY-MM-DD format")]);
               ("checkOutDate", JObj [
                  ("type", JStr "string");
                  ("description", JStr "Check-out date in YYYY-MM-DD format")]);
               ("adults", JObj [
                  ("type", JStr "integer");
                  ("description", JStr "Number of adults (default: 2)")]);
               ("currency", JObj [
                  ("type", JStr "string");
                  ("description", JStr "Currency code (default: USD)")]);
               ("minPrice", JObj [
                  ("type", JStr "integer");
                  ("description", JStr "Minimum price filter")]);
               ("maxPrice", JObj [
                  ("type", JStr "integer");
                  ("description", JStr "Maximum price filter")]);
               ("minRating", JObj [
                  ("type", JStr "number");
                  ("description", JStr "Minimum rating filter (e.g., 4.0)")])]);
            ("required", JArr [JStr "destination"])])];
       JObj [
         ("id", JStr "get-hotel-details");
         ("name", JStr "Get Hotel Details");
         ("description", JStr "Get detailed information about a specific hotel including amenities, reviews, and photos.");
         ("inputSchema", JObj [
            ("type", JStr "object");
            ("properties", JObj [
               ("propertyToken", JObj [
                  ("type", JStr "string");
                  ("description", JStr "The property token from search results")]);
               ("checkInDate", JObj [
                  ("type", JStr "string");
                  ("description", JStr "Check-in date in YYYY-MM-DD format")]);
               ("checkOutDate", JObj [
                  ("type", JStr "string");
                  ("description", JStr "Check-out date in YYYY-MM-DD format")])]);
            ("required", JArr [JStr "propertyToken"])])]]);
    ("defaultInputModes", JArr [JStr "text"]);
    ("defaultOutputModes", JArr [JStr "text"])].

(** [get_agent_card] (lines 423-426). *)
Definition get_agent_card (port : string) : result JSONResponse :=
  json_response (AGENT_CARD port).

(** [health_check] (lines 534-541); [bool(SERPAPI_API_KEY)] is true for a
    key that is not empty. *)
Definition health_check (SERPAPI_API_KEY : string) : json :=
  JObj [
    ("status", JStr "healthy");
    ("agent", JStr "serpapi-hotel-agent");
    ("serpapi_configured", JBool (py_truthy (JStr SERPAPI_API_KEY)))].

(** The skills a card advertises, and the parameters each one declares. *)
Definition field (v : json) (k : string) : json :=
  match v with
  | JObj d => arg d k JNull
  | _ => JNull
  end.

Definition items_of (v : json) : list json :=
  match v with
  | JArr items => items
  | _ => []
  end.

Definition keys_of (v : json) : list string :=
  match v with
  | JObj d => d.*1
  | _ => []
  end.

Definition advertised_skills (card : json) : list json :=
  (λ skill, field skill "id") <$> items_of (field card "skills").

Definition declared_parameters (card : json) (skill_id : string) : list string :=
  mjoin ((λ skill, keys_of (field (field skill "inputSchema") "properties")) <$>
           filter (λ skill, py_eq (field skill "id") (JStr skill_id) = true)
             (items_of (field card "skills"))).

Lemma advertised_skills_card (port : string) :
  advertised_skills (AGENT_CARD port) =
  [JStr "search-hotels-live"; JStr "get-hotel-details"].
Proof. reflexivity. Qed.

Lemma declared_parameters_search (port : string) :
  declared_parameters (AGENT_CARD port) "search-hotels-live" =
  ["destination"; "checkInDate"; "checkOutDate"; "adults"; "currency";
   "minPrice"; "maxPrice"; "minRating"].
Proof. reflexivity. Qed.

Lemma declared_parameters_details (port : string) :
  declared_parameters (AGENT_CARD port) "get-hotel-details" =
  ["propertyToken"; "checkInDate"; "checkOutDate"].
Proof. reflexivity. Qed.

(** X1: the dispatcher and the discovery document agree.  A skill id the
    card advertises runs [search_hotels_live] or [get_hotel_details]; any
    other id is answered locally with success=false and "Unknown skill",
    whatever the parameters, and leaves the world untouched. *)
Theorem advertised_skills_are_the_dispatched_ones (SERPAPI_API_KEY port : string)
    (py_repr : json → string) (env : Env) (skill_id task_params : json) (w : World) :
  let run := execute_skill SERPAPI_API_KEY py_repr env skill_id task_params w in
  (existsb (py_eq skill_id) (advertised_skills (AGENT_CARD port)) = true →
   run = search_hotels_live SERPAPI_API_KEY py_repr env task_params w ∨
   run = get_hotel_details SERPAPI_API_KEY env task_params w) ∧
  (existsb (py_eq skill_id) (advertised_skills (AGENT_CARD port)) = false →
   run = (Ok (JObj [
            ("success", JBool false);
            ("error", JStr ("Unknown skill: " +:+ py_str py_repr skill_id))]), w)).
Proof.
  cbv zeta. rewrite advertised_skills_card. cbn [existsb]. unfold execute_skill.
  destruct (py_eq skill_id (JStr "search-hotels-live"));
    [split; [by left | discriminate]|].
  destruct (py_eq skill_id (JStr "get-hotel-details"));
    [split; [by right | discriminate]|].
  split; [discriminate | done].
Qed.

Lemma advertised_skills_witness :
  execute_skill "key" (λ _, "") offline (JStr "book-hotel")
    (JObj [("destination", JStr "Paris")]) start =
  (Ok (JObj [
     ("success", JBool false);
     ("error", JStr ("Unknown skill: " +:+ py_str (λ _, "") (JStr "book-hotel")))]),
   start) ∧
  (execute_skill "key" (λ _, "") offline (JStr "get-hotel-details") (JObj []) start =
     search_hotels_live "key" (λ _, "") offline (JObj []) start ∨
   execute_skill "key" (λ _, "") offline (JStr "get-hotel-details") (JObj []) start =
     get_hotel_details "key" offline (JObj []) start).
Proof.
  split.
  - exact (proj2 (advertised_skills_are_the_dispatched_ones "key" "8083" (λ _, "")
                    offline (JStr "book-hotel") _ start) eq_refl).
  - exact (proj1 (advertised_skills_are_the_dispatched_ones "key" "8083" (λ _, "")
                    offline (JStr "get-hotel-details") (JObj []) start) eq_refl).
Defined.

Lemma arg_ext (d d' : dict) (k : string) (dflt : json) :
  dict_get k d = dict_get k d' → arg d k dflt = arg d' k dflt.
Proof. unfold arg. by intros ->. Qed.

(** X2: a parameter the card does not declare for a skill has no effect
    on it: two parameter objects that agree on the declared parameters
    give the same result, the same upstream call and the same world. *)
Theorem undeclared_parameters_are_ignored (SERPAPI_API_KEY port : string)
    (py_repr : json → string) (env : Env) (d d' : dict) (w : World) :
  ((∀ k, k ∈ declared_parameters (AGENT_CARD port) "search-hotels-live" →
         dict_get k d = dict_get k d') →
   search_hotels_live SERPAPI_API_KEY py_repr env (JObj d) w =
   search_hotels_live SERPAPI_API_KEY py_repr env (JObj d') w) ∧
  ((∀ k, k ∈ declared_parameters (AGENT_CARD port) "get-hotel-details" →
         dict_get k d = dict_get k d') →
   get_hotel_details SERPAPI_API_KEY env (JObj d) w =
   get_hotel_details SERPAPI_API_KEY env (JObj d') w).
Proof.
  split; intros H.
  - rewrite declared_parameters_search in H.
    rewrite !search_hotels_live_dict.
    unfold search_query, search_try, check_in_of, check_out_of.
    rewrite (arg_ext d d' "destination"), (arg_ext d d' "checkInDate"),
      (arg_ext d d' "checkOutDate"), (arg_ext d d' "adults"),
      (arg_ext d d' "currency"), (arg_ext d d' "minPrice"),
      (arg_ext d d' "maxPrice"), (arg_ext d d' "minRating");
      try (apply H; set_solver).
    reflexivity.
  - rewrite declared_parameters_details in H.
    rewrite !get_hotel_details_dict.
    unfold details_query, check_in_of, check_out_of.
    rewrite (arg_ext d d' "propertyToken"), (arg_ext d d' "checkInDate"),
      (arg_ext d d' "checkOutDate"); try (apply H; set_solver).
    reflexivity.
Qed.

Lemma undeclared_parameters_witness :
  search_hotels_live "key" (λ _, "") unavailable
    (JObj [("destination", JStr "Paris"); ("rooms", JInt 3)]) start =
  search_hotels_live "key" (λ _, "") unavailable
    (JObj [("pets", JBool true); ("destination", JStr "Paris")]) start.
Proof.
  apply (proj1 (undeclared_parameters_are_ignored "key" "8083" (λ _, "") unavailable
                  [("destination", JStr "Paris"); ("rooms", JInt 3)]
                  [("pets", JBool true); ("destination", JStr "Paris")] start)).
  intros k Hk. rewrite declared_parameters_search in Hk.
  repeat (apply elem_of_cons in Hk as [->|Hk]; [reflexivity|]).
  by apply elem_of_nil in Hk.
Defined.

(** ** Outbound calls *)

Lemma called_neq (w : World) (req : request) : called w req ≠ w.
Proof.
  intros H. apply (f_equal (λ w, length (sent w))) in H.
  cbn [called sent] in H. rewrite length_app in H. cbn in H. lia.
Qed.

(** X3: the health probe tells the truth about the skills: it reports
    [serpapi_configured] false exactly when a search is refused for the
    missing credential without any call, and true exactly when a search
    makes its one upstream call. *)
Theorem health_reports_what_the_search_checks (SERPAPI_API_KEY : string)
    (py_repr : json → string) (env : Env) (d : dict) (w : World) :
  let run := search_hotels_live SERPAPI_API_KEY py_repr env (JObj d) w in
  (py_get (health_check SERPAPI_API_KEY) "serpapi_configured" JNull = Ok (JBool false) ↔
   run = (Ok (JObj [
            ("success", JBool false);
            ("error", JStr "SerpAPI API key not configured. Please set SERPAPI_API_KEY environment variable.");
            ("hotels", JArr [])]), w)) ∧
  (py_get (health_check SERPAPI_API_KEY) "serpapi_configured" JNull = Ok (JBool true) ↔
   sent run.2 = (sent w ++ [search_query SERPAPI_API_KEY py_repr env d])%list).
Proof.
  cbv zeta. rewrite search_hotels_live_dict.
  cbn [health_check py_get dict_get String.eqb Ascii.eqb Bool.eqb default from_option
       py_truthy id].
  destruct (String.eqb SERPAPI_API_KEY "") eqn:Hkey; cbn [negb snd]; split; split;
    try done.
  - intros H. apply (f_equal length) in H. rewrite length_app in H. cbn in H. lia.
  - intros [= _ H]. by apply called_neq in H.
Qed.

(** What a skill run does to the world: nothing, or one call to the
    search endpoint carrying the credential. *)
Definition one_call (SERPAPI_API_KEY : string) (w w' : World) : Prop :=
  ∃ req,
    w' = called w req ∧ req_url req = SERPAPI_BASE_URL ∧
    dict_get "engine" (req_params req) = Some (JStr "google_hotels") ∧
    dict_get "api_key" (req_params req) = Some (JStr SERPAPI_API_KEY).

Lemma search_query_fixed (SERPAPI_API_KEY : string) (py_repr : json → string)
    (env : Env) (d : dict) :
  dict_get "engine" (req_params (search_query SERPAPI_API_KEY py_repr env d)) =
    Some (JStr "google_hotels") ∧
  dict_get "api_key" (req_params (search_query SERPAPI_API_KEY py_repr env d)) =
    Some (JStr SERPAPI_API_KEY).
Proof.
  unfold search_query, search_params. cbn [req_params].
  rewrite add_price_filter_truthy.
  by destruct (py_truthy (arg d "minPrice" JNull)),
    (py_truthy (arg d "maxPrice" JNull)).
Qed.

Lemma execute_skill_calls (SERPAPI_API_KEY : string) (py_repr : json → string)
    (env : Env) (skill_id task_params : json) (w : World) :
  let w' := (execute_skill SERPAPI_API_KEY py_repr env skill_id task_params w).2 in
  w' = w ∨ one_call SERPAPI_API_KEY w w'.
Proof.
  cbv zeta. unfold execute_skill.
  destruct (py_eq skill_id (JStr "search-hotels-live")).
  { destruct (is_dict task_params) eqn:Hd.
    - apply is_dict_true in Hd as [d ->]. rewrite search_hotels_live_dict.
      destruct (String.eqb SERPAPI_API_KEY ""); [by left|]. right.
      eexists. split; [reflexivity|]. split; [done|]. apply search_query_fixed.
    - rewrite search_hotels_live_not_dict by done. by left. }
  destruct (py_eq skill_id (JStr "get-hotel-details")); [|by left].
  destruct (is_dict task_params) eqn:Hd.
  - apply is_dict_true in Hd as [d ->]. rewrite get_hotel_details_dict.
    destruct (negb _); [by left|].
    destruct (String.eqb SERPAPI_API_KEY ""); [by left|]. right.
    eexists. by split; [reflexivity|].
  - rewrite get_hotel_details_not_dict by done. by left.
Qed.

(** X4: one request to the endpoint makes no outbound call, or exactly
    one, to the SerpAPI search URL with the Google Hotels engine and the
    configured credential; calls made earlier stay on record; and only a
    [tasks/send] can make one. *)
Theorem at_most_one_outbound_call (SERPAPI_API_KEY : string)
    (py_repr : json → string) (env : Env) (request : parsed) (w : World) :
  let w' := (handle_a2a SERPAPI_API_KEY py_repr env request w).2 in
  (sent w' = sent w ∨
   ∃ req,
     sent w' = (sent w ++ [req])%list ∧ req_url req = SERPAPI_BASE_URL ∧
     dict_get "engine" (req_params req) = Some (JStr "google_hotels") ∧
     dict_get "api_key" (req_params req) = Some (JStr SERPAPI_API_KEY)) ∧
  (∀ rq, request = Valid rq → method rq ≠ "tasks/send" → sent w' = sent w) ∧
  (∀ e, request = Invalid e → w' = w).
Proof.
  cbv zeta. destruct request as [rq|e]; [|by repeat split; auto].
  destruct (method_cases (method rq)) as [Hm|[Hm|[Hm|(Hs & Hg & Hc)]]].
  - split; [|split; [by intros ? [= <-] | done]].
    rewrite handle_send by done.
    destruct (send_inputs _) as [[skill_id task_params]|]; [|by left].
    pose proof (execute_skill_calls SERPAPI_API_KEY py_repr env skill_id
                  task_params w) as Hcall. cbv zeta in Hcall.
    destruct (execute_skill _ _ _ _ _ w) as [[res|e] w1]; cbn [snd stored sent] in *.
    + destruct Hcall as [->|(req & -> & ?)]; [by left|]. right. by exists req.
    + destruct Hcall as [->|(req & -> & ?)]; [by left|]. right. by exists req.
  - assert (sent (handle_a2a SERPAPI_API_KEY py_repr env (Valid rq) w).2 = sent w)
      as Hsame.
    { rewrite handle_get by done. cbv zeta. destruct (py_hashable _); [|done].
      by destruct (lookup_task w _) as [[]|]. }
    split; [by left|]. split; [by intros ? [= <-]|done].
  - assert (sent (handle_a2a SERPAPI_API_KEY py_repr env (Valid rq) w).2 = sent w)
      as Hsame.
    { rewrite handle_cancel by done. cbv zeta. destruct (py_hashable _); [|done].
      destruct (lookup_task w _) as [[k task]|]; [|done].
      by destruct (cancel_task task). }
    split; [by left|]. split; [by intros ? [= <-]|done].
  - rewrite handle_unknown_method by done. split; [by left|].
    split; [by intros ? [= <-]|done].
Qed.

Lemma at_most_one_outbound_call_witness :
  sent (handle_a2a "key" (λ _, "") offline (Valid cancel_paris) after_send_paris).2 =
  sent after_send_paris.
Proof.
  exact (proj1 (proj2 (at_most_one_outbound_call "key" (λ _, "") offline
                         (Valid cancel_paris) after_send_paris))
           cancel_paris eq_refl ltac:(discriminate)).
Defined.

(** ** More on normalisation *)

(** [v.get(k, dflt)] on a value known to be an object. *)
Definition member (v : json) (k : string) (dflt : json) : json :=
  match v with
  | JObj d => arg d k dflt
  | _ => dflt
  end.

Lemma image_urls_truthy (imgs us : list json) :
  image_urls imgs = Ok us →
  (length us ≤ length imgs)%nat ∧ Forall (λ u, py_truthy u = true) us.
Proof.
  revert us. induction imgs as [|img imgs IH]; intros us H.
  - injection H as <-. by split.
  - cbn [image_urls] in H.
    destruct (image_url img) as [u|] eqn:Hu; [|discriminate H].
    cbn [mbind result_bind] in H. destruct (py_truthy u) eqn:Htruthy.
    + cbn [mbind result_bind] in H.
      destruct (image_urls imgs) as [us'|]; [|discriminate H].
      injection H as <-. destruct (IH us' eq_refl) as [Hlen Hall].
      split; [cbn; lia | by constructor].
    + destruct (IH us H) as [Hlen Hall]. split; [cbn; lia | done].
Qed.

Lemma hotel_images_inv (prop images : json) :
  hotel_images prop = Ok images →
  ∃ imgs us,
    py_slice (member prop "images" (JArr [])) 6 = Ok imgs ∧
    image_urls imgs = Ok us ∧ images = JArr us.
Proof.
  unfold hotel_images. destruct prop as [| | | | | |d]; try discriminate.
  cbn [py_get mbind result_bind member]. fold (arg d "images" (JArr [])).
  destruct (py_slice _ 6) as [imgs|] eqn:Hslice; [|discriminate].
  cbn [mbind result_bind].
  destruct (image_urls imgs) as [us|] eqn:Hurls; [|discriminate].
  intros [= <-]. by exists imgs, us.
Qed.

Lemma py_slice_length (v : json) (n : nat) (l : list json) :
  py_slice v n = Ok l → (length l ≤ n)%nat.
Proof.
  destruct v; try discriminate; intros [= <-]; rewrite length_take; lia.
Qed.

(** X5: every record of a normalised list carries at most six image
    URLs, and none of them is null or empty. *)
Theorem hotels_carry_at_most_six_images (min_rating cur ci co : json)
    (props hs : list json) :
  transform min_rating cur ci co props [] = Ok hs →
  Forall (λ h, ∃ us, py_getitem h "images" = Ok (JArr us) ∧
                     (length us ≤ 6)%nat ∧
                     Forall (λ u, py_truthy u = true) us) hs.
Proof.
  intros (recs & Hrecs & ->)%transform_filter. cbn [app].
  apply mapM_result_Forall2 in Hrecs.
  apply Forall_forall. intros h [_ Hin]%list_elem_of_filter.
  destruct (proj1 (list_elem_of_lookup _ _) Hin) as [i Hi].
  destruct (Forall2_lookup_r _ _ _ _ _ Hrecs Hi) as (prop & _ & Hmake).
  apply make_hotel_inv in Hmake as (d & ? & ? & images & ? & ? & ? & -> & Himages & ->).
  apply hotel_images_inv in Himages as (imgs & us & Hslice & Hurls & ->).
  exists us. split; [reflexivity|].
  apply image_urls_truthy in Hurls as [Hlen Hall]. apply py_slice_length in Hslice.
  split; [lia | done].
Qed.

(** A property with eight images, of which the first six hold two
    empty thumbnails with and without a fallback, a null thumbnail and an
    entry with a fallback only; and one with seven usable images. *)
Definition example_galleries : list json := [
  JObj [("name", JStr "Lutetia"); ("overall_rating", JFloat (FFin (9 # 2)));
        ("images", JArr [
           JObj [("thumbnail", JStr "t1")];
           JObj [("thumbnail", JStr ""); ("original_image", JStr "o2")];
           JObj [("thumbnail", JStr ""); ("original_image", JStr "")];
           JObj [("thumbnail", JNull)];
           JObj [("original_image", JStr "o5")];
           JObj [("thumbnail", JStr "t6"); ("original_image", JStr "o6")];
           JObj [("thumbnail", JStr "t7")];
           JObj [("thumbnail", JStr "t8")]])];
  JObj [("name", JStr "Ritz");
        ("images", JArr [
           JObj [("thumbnail", JStr "r1")];
           JObj [("thumbnail", JStr "r2")];
           JObj [("thumbnail", JStr "r3")];
           JObj [("thumbnail", JStr "r4")];
           JObj [("thumbnail", JStr "r5")];
           JObj [("thumbnail", JStr "r6")];
           JObj [("thumbnail", JStr "r7")]])]].

Lemma hotels_carry_at_most_six_images_witness :
  ∃ hs, transform (JFloat (FFin (4 # 1))) (JStr "USD") (JStr "2026-11-05")
          (JStr "2026-11-07") example_galleries [] = Ok hs ∧
        (λ h, py_getitem h "images") <$> hs = [
          Ok (JArr [JStr "t1"; JStr "o2"; JStr "o5"; JStr "t6"]);
          Ok (JArr [JStr "r1"; JStr "r2"; JStr "r3"; JStr "r4"; JStr "r5";
                    JStr "r6"])] ∧
        Forall (λ h, ∃ us, py_getitem h "images" = Ok (JArr us) ∧
                           (length us ≤ 6)%nat ∧
                           Forall (λ u, py_truthy u = true) us) hs.
Proof.
  eexists. split; [reflexivity|]. split; [reflexivity|].
  apply (hotels_carry_at_most_six_images (JFloat (FFin (4 # 1))) (JStr "USD")
           (JStr "2026-11-05") (JStr "2026-11-07") example_galleries).
  reflexivity.
Defined.

(** X6: without a minimum rating (missing, null or zero) the loop keeps
    every record: it returns the records of all entries in order, and
    fails exactly when the extraction of some entry fails. *)
Theorem no_minimum_keeps_every_record (min_rating cur ci co : json)
    (props hotels : list json) :
  py_truthy min_rating = false →
  transform min_rating cur ci co props hotels =
  (recs ← mapM (make_hotel cur ci co) props; Ok (hotels ++ recs)%list).
Proof.
  intros Hmin. revert hotels. induction props as [|prop props IH]; intros hotels.
  - cbn. by rewrite app_nil_r.
  - cbn [transform mapM]. destruct (make_hotel cur ci co prop) as [h|]; [|done].
    cbn [mbind result_bind]. unfold rating_filter at 1. rewrite Hmin.
    cbn [mbind result_bind]. rewrite IH.
    destruct (mapM (make_hotel cur ci co) props) as [recs|]; [|done].
    cbn [mbind result_bind mret result_ret]. by rewrite <- app_assoc.
Qed.

Lemma no_minimum_witness :
  transform (JInt 0) (JStr "USD") (JStr "2026-11-05") (JStr "2026-11-07")
    example_ratings [] =
  (recs ← mapM (make_hotel (JStr "USD") (JStr "2026-11-05") (JStr "2026-11-07"))
             example_ratings; Ok ([] ++ recs)%list).
Proof.
  exact (no_minimum_keeps_every_record (JInt 0) _ _ _ example_ratings [] eq_refl).
Defined.

Lemma hotel_images_log_lines (d : dict) (images : json) :
  hotel_images (JObj d) = Ok images →
  ∃ n first,
    py_len (arg d "images" (JArr [])) = Ok n ∧
    (if py_truthy (arg d "images" (JArr []))
     then py_first (arg d "images" (JArr [])) else Ok JNull) = Ok first.
Proof.
  intros (imgs & us & Hslice & Hurls & _)%hotel_images_inv. cbn [member] in Hslice.
  destruct (arg d "images" (JArr [])) as [| | | |s|items|]; try discriminate.
  - destruct s as [|c s]; [by do 2 eexists|].
    injection Hslice as <-. discriminate Hurls.
  - destruct items; by do 2 eexists.
Qed.

(** X7: partial data is tolerated, and prices come from the nested rate
    objects.  A property object whose images can be extracted, whose
    coordinates are an object (or missing) and whose rate objects are
    objects (or missing, null or empty) gives a record with: the
    coordinates' latitude and longitude or null; as price and
    pricePerNight the ["lowest"] (default [""]) and ["extracted_lowest"]
    of ["rate_per_night"], or null without one; as totalPrice the
    ["extracted_lowest"] of ["total_rate"], or null without one. *)
Theorem make_hotel_record (cur ci co images : json) (d : dict) :
  let gps := arg d "gps_coordinates" (JObj []) in
  let rate := arg d "rate_per_night" JNull in
  let total := arg d "total_rate" JNull in
  hotel_images (JObj d) = Ok images →
  is_dict gps = true →
  (py_truthy rate = true → is_dict rate = true) →
  (py_truthy total = true → is_dict total = true) →
  make_hotel cur ci co (JObj d) =
  Ok (hotel_record cur ci co d
        (member gps "latitude" JNull) (member gps "longitude" JNull) images
        (if py_truthy rate then member rate "lowest" (JStr "") else JNull)
        (if py_truthy rate then member rate "extracted_lowest" JNull else JNull)
        (if py_truthy total then member total "extracted_lowest" JNull else JNull)).
Proof.
  cbv zeta. intros Himages Hgps Hrate Htotal.
  destruct (hotel_images_log_lines d images Himages) as (n & first & Hlen & Hfirst).
  apply is_dict_true in Hgps as [g Hg].
  unfold make_hotel. cbn [py_get mbind result_bind].
  fold (arg d "images" (JArr [])) (arg d "gps_coordinates" (JObj []))
    (arg d "rate_per_night" JNull) (arg d "total_rate" JNull).
  rewrite Hlen. cbn [mbind result_bind]. rewrite Hfirst. cbn [mbind result_bind].
  rewrite Hg. cbn [py_get mbind result_bind member]. rewrite Himages.
  cbn [mbind result_bind].
  destruct (py_truthy (arg d "rate_per_night" JNull)) eqn:Hr.
  - destruct (is_dict_true _ (Hrate eq_refl)) as [rp ->].
    cbn [py_get mbind result_bind py_setitem dict_set String.eqb Ascii.eqb Bool.eqb member].
    destruct (py_truthy (arg d "total_rate" JNull)) eqn:Ht.
    + by destruct (is_dict_true _ (Htotal eq_refl)) as [tr ->].
    + done.
  - cbn [mbind result_bind].
    destruct (py_truthy (arg d "total_rate" JNull)) eqn:Ht.
    + by destruct (is_dict_true _ (Htotal eq_refl)) as [tr ->].
    + done.
Qed.

(** A listing with a nightly rate and nothing else. *)
Definition priced_property : dict := [
  ("name", JStr "Hotel du Nord");
  ("rate_per_night", JObj [("lowest", JStr "$120"); ("extracted_lowest", JInt 120)])].

Lemma make_hotel_record_witness :
  make_hotel (JStr "USD") (JStr "2026-11-05") (JStr "2026-11-07") (JObj priced_property) =
  Ok (JObj [
    ("name", JStr "Hotel du Nord");
    ("description", JStr "");
    ("propertyToken", JStr "");
    ("rating", JNull);
    ("reviewCount", JNull);
    ("stars", JNull);
    ("price", JStr "$120");
    ("pricePerNight", JInt 120);
    ("totalPrice", JNull);
    ("currency", JStr "USD");
    ("location", JObj [
       ("address", JStr "");
       ("neighborhood", JStr "");
       ("latitude", JNull);
       ("longitude", JNull)]);
    ("amenities", JArr []);
    ("images", JArr []);
    ("checkIn", JStr "2026-11-05");
    ("checkOut", JStr "2026-11-07")]).
Proof.
  exact (make_hotel_record (JStr "USD") (JStr "2026-11-05") (JStr "2026-11-07")
           (JArr []) priced_property eq_refl eq_refl (λ _, eq_refl)
           (λ H, False_ind _ (Bool.diff_false_true H))).
Defined.

(** The loop returns only when every entry was extracted and compared. *)
Lemma transform_all_or_nothing (min_rating cur ci co : json)
    (props hotels hs : list json) :
  transform min_rating cur ci co props hotels = Ok hs →
  Forall (λ prop, ∃ h skip, make_hotel cur ci co prop = Ok h ∧
                            rating_filter min_rating h = Ok skip) props.
Proof.
  revert hotels. induction props as [|prop props IH]; intros hotels H; [constructor|].
  cbn [transform] in H.
  destruct (make_hotel cur ci co prop) as [h|] eqn:Hh; [|discriminate H].
  cbn [mbind result_bind] in H.
  destruct (rating_filter min_rating h) as [skip|] eqn:Hskip; [|discriminate H].
  cbn [mbind result_bind] in H. constructor; [by exists h, skip | by eapply IH].
Qed.

(** X8: a search never returns partial results.  If one of the first ten
    upstream entries is not an object, or carries a rating that cannot be
    compared with the requested minimum, the whole search reports
    success=false with an empty hotel list, however many good entries
    there are. *)
Theorem one_bad_entry_fails_the_search (SERPAPI_API_KEY : string)
    (py_repr : json → string) (env : Env) (d data : dict) (w : World)
    (r : upstream_response) (items : list json) (i : nat) (bad : json) :
  SERPAPI_API_KEY ≠ "" →
  upstream env (search_query SERPAPI_API_KEY py_repr env d) = Answered r →
  response_json r = inr (JObj data) →
  arg data "properties" (JArr []) = JArr items →
  (i < 10)%nat → items !! i = Some bad →
  (is_dict bad = false ∨
   (py_truthy (arg d "minRating" JNull) = true ∧
    py_truthy (rating_of bad) = true ∧
    ∃ e, py_lt (rating_of bad) (arg d "minRating" JNull) = Raise e)) →
  ∃ res message,
    (search_hotels_live SERPAPI_API_KEY py_repr env (JObj d) w).1 = Ok res ∧
    reports_failure res message ∧
    py_get res "hotels" JNull = Ok (JArr []).
Proof.
  intros Hkey Hup Hbody Hprops Hi Hbad Hwhy.
  rewrite search_hotels_live_dict, (not_empty_eqb _ Hkey), Hup. cbn [fst absorb].
  destruct (search_try env d r) as [res|e] eqn:Htry.
  2:{ destruct e; do 2 eexists; (split; [reflexivity|]); split; try split; reflexivity. }
  exfalso. unfold search_try in Htry.
  destruct (raise_for_status r) as [[]|]; [|discriminate Htry].
  unfold response_json_of in Htry. rewrite Hbody in Htry.
  cbn [mbind result_bind py_keys py_get] in Htry.
  fold (arg data "properties" (JArr [])) in Htry. rewrite Hprops in Htry.
  cbn [mbind result_bind py_len py_slice] in Htry.
  destruct (transform _ _ _ _ (take 10 items) []) as [hotels|] eqn:Hloop;
    [|discriminate Htry].
  apply transform_all_or_nothing in Hloop.
  assert (take 10 items !! i = Some bad) as Hin by by rewrite lookup_take_lt.
  destruct (proj1 (Forall_lookup _ _) Hloop i bad Hin) as (h & skip & Hh & Hskip).
  destruct Hwhy as [Hnot|(Hmin & Hrating & e & Hlt)].
  - apply make_hotel_inv in Hh as (? & ? & ? & ? & ? & ? & ? & -> & _). discriminate.
  - pose proof (make_hotel_rating _ _ _ _ _ Hh) as Hr.
    apply make_hotel_inv in Hh as (d0 & ? & ? & ? & ? & ? & ? & -> & _ & ->).
    unfold rating_filter in Hskip. rewrite Hmin in Hskip.
    cbn [hotel_record py_getitem dict_get String.eqb Ascii.eqb Bool.eqb
         mbind result_bind] in Hskip.
    cbn [rating_of] in Hrating, Hlt. rewrite Hrating in Hskip.
    cbn [mbind result_bind] in Hskip. rewrite Hlt in Hskip. discriminate.
Qed.

(** A response with one good entry and one that is a bare string. *)
Definition one_bad_entry : json :=
  JObj [("properties", JArr [
    JObj [("name", JStr "Hotel du Nord")];
    JStr "advertisement"])].

Lemma one_bad_entry_witness :
  ∃ res message,
    (search_hotels_live "key" (λ _, "") (answering one_bad_entry)
       (JObj [("destination", JStr "Paris")]) start).1 = Ok res ∧
    reports_failure res message ∧
    py_get res "hotels" JNull = Ok (JArr []).
Proof.
  eapply (one_bad_entry_fails_the_search "key" (λ _, "") (answering one_bad_entry)
            [("destination", JStr "Paris")] _ start _ _ 1 (JStr "advertisement")).
  - discriminate.
  - reflexivity.
  - reflexivity.
  - reflexivity.
  - lia.
  - reflexivity.
  - by left.
Defined.

(** X9: whatever the parameters and whatever the upstream does, a search
    result carries a hotel list of at most ten entries; the list is empty
    when the result says success=false, and when it says success=true
    [hotelCount] is the length of the list. *)
Theorem search_result_hotels (SERPAPI_API_KEY : string) (py_repr : json → string)
    (env : Env) (d : dict) (w : World) :
  ∃ res hotels,
    (search_hotels_live SERPAPI_API_KEY py_repr env (JObj d) w).1 = Ok res ∧
    py_get res "hotels" JNull = Ok (JArr hotels) ∧
    (length hotels ≤ 10)%nat ∧
    ((∃ message, reports_failure res message) → hotels = []) ∧
    (reports_success res →
     py_get res "hotelCount" JNull = Ok (JInt (Z.of_nat (length hotels)))).
Proof.
  rewrite search_hotels_live_dict.
  assert (∀ e, ∃ res hotels,
            Ok (search_except e) = Ok res ∧
            py_get res "hotels" JNull = Ok (JArr hotels) ∧
            (length hotels ≤ 10)%nat ∧
            ((∃ message, reports_failure res message) → hotels = []) ∧
            (reports_success res →
             py_get res "hotelCount" JNull = Ok (JInt (Z.of_nat (length hotels)))))
    as Hexcept.
  { intros e. exists (search_except e), [].
    destruct e; repeat split; cbn; try lia; discriminate. }
  destruct (String.eqb SERPAPI_API_KEY ""); cbn [fst].
  { exists search_not_configured, []. repeat split; cbn; try lia; discriminate. }
  destruct (upstream env _) as [r|cls text]; cbn [absorb]; [|apply Hexcept].
  destruct (search_try env d r) as [res|e] eqn:Htry; [|apply Hexcept].
  unfold search_try in Htry.
  destruct (raise_for_status r) as [[]|]; [|discriminate Htry].
  cbn [mbind result_bind] in Htry.
  destruct (response_json_of r) as [data|]; [|discriminate Htry].
  cbn [mbind result_bind] in Htry.
  destruct (py_keys data) as [ks|]; [|discriminate Htry].
  cbn [mbind result_bind] in Htry.
  destruct (py_get data "properties" (JArr [])) as [properties|]; [|discriminate Htry].
  cbn [mbind result_bind] in Htry.
  destruct (py_len properties) as [n|]; [|discriminate Htry].
  cbn [mbind result_bind] in Htry.
  destruct (py_slice properties 10) as [props|] eqn:Hslice; [|discriminate Htry].
  cbn [mbind result_bind] in Htry.
  destruct (transform _ _ _ _ props []) as [hotels|] eqn:Hloop; [|discriminate Htry].
  injection Htry as <-.
  apply transform_filter in Hloop as (recs & Hrecs & ->). cbn [app].
  apply mapM_result_length in Hrecs. apply py_slice_length in Hslice.
  eexists _, _. split; [reflexivity|]. split; [reflexivity|]. split.
  { etrans; [apply length_filter|]. lia. }
  split; [|done]. by intros (message & [=] & _).
Qed.

(** ** What the skills make of the upstream document *)

Lemma raise_for_status_success (r : upstream_response) :
  is_success r = true → raise_for_status r = Ok ().
Proof. unfold raise_for_status, is_success. by intros ->. Qed.

(** X10: a detail fetch hands the upstream document on unchanged: for a
    2xx answer whose body is a JSON object, the result is success=true
    with that object under ["hotel"], after exactly one call. *)
Theorem details_returns_the_document (SERPAPI_API_KEY : string) (env : Env)
    (d data : dict) (w : World) (r : upstream_response) :
  SERPAPI_API_KEY ≠ "" →
  py_truthy (arg d "propertyToken" (JStr "")) = true →
  upstream env (details_query SERPAPI_API_KEY env d) = Answered r →
  is_success r = true →
  response_json r = inr (JObj data) →
  get_hotel_details SERPAPI_API_KEY env (JObj d) w =
  (Ok (JObj [
     ("success", JBool true);
     ("hotel", JObj data);
     ("source", JStr "Google Hotels via SerpAPI")]),
   called w (details_query SERPAPI_API_KEY env d)).
Proof.
  intros Hkey Htoken Hup Hstatus Hbody.
  rewrite get_hotel_details_dict, Htoken, (not_empty_eqb _ Hkey), Hup.
  cbn [negb absorb]. unfold details_try, response_json_of.
  by rewrite (raise_for_status_success _ Hstatus), Hbody.
Qed.

Lemma details_returns_the_document_witness :
  get_hotel_details "key" (answering one_bad_entry)
    (JObj [("propertyToken", JStr "ChIJ")]) start =
  (Ok (JObj [
     ("success", JBool true);
     ("hotel", one_bad_entry);
     ("source", JStr "Google Hotels via SerpAPI")]),
   called start (details_query "key" (answering one_bad_entry)
                   [("propertyToken", JStr "ChIJ")])).
Proof.
  eapply (details_returns_the_document "key" (answering one_bad_entry)
            [("propertyToken", JStr "ChIJ")]); [discriminate|reflexivity..].
Defined.

(** X11: a 2xx answer whose JSON document is not an object (a list, a
    string, a number, null) is a failure for both skills: the result is
    success=false and the error names the missing [keys] attribute. *)
Theorem document_that_is_not_an_object_fails (SERPAPI_API_KEY : string)
    (py_repr : json → string) (env : Env) (d : dict) (w : World)
    (r : upstream_response) (data : json) :
  SERPAPI_API_KEY ≠ "" →
  is_success r = true →
  response_json r = inr data →
  is_dict data = false →
  (upstream env (search_query SERPAPI_API_KEY py_repr env d) = Answered r →
   (search_hotels_live SERPAPI_API_KEY py_repr env (JObj d) w).1 =
   Ok (JObj [
     ("success", JBool false);
     ("error", JStr ("Failed to search hotels: '" +:+ type_name data +:+
                     "' object has no attribute 'keys'"));
     ("hotels", JArr [])])) ∧
  (py_truthy (arg d "propertyToken" (JStr "")) = true →
   upstream env (details_query SERPAPI_API_KEY env d) = Answered r →
   (get_hotel_details SERPAPI_API_KEY env (JObj d) w).1 =
   Ok (JObj [
     ("success", JBool false);
     ("error", JStr ("Failed to get hotel details: '" +:+ type_name data +:+
                     "' object has no attribute 'keys'"))])).
Proof.
  intros Hkey Hstatus Hbody Hdata. split.
  - intros Hup. rewrite search_hotels_live_dict, (not_empty_eqb _ Hkey), Hup.
    cbn [fst absorb]. unfold search_try, response_json_of.
    rewrite (raise_for_status_success _ Hstatus), Hbody.
    by destruct data.
  - intros Htoken Hup.
    rewrite get_hotel_details_dict, Htoken, (not_empty_eqb _ Hkey), Hup.
    cbn [negb fst absorb]. unfold details_try, response_json_of.
    rewrite (raise_for_status_success _ Hstatus), Hbody.
    by destruct data.
Qed.

Lemma document_that_is_not_an_object_witness :
  (search_hotels_live "key" (λ _, "") (answering (JArr []))
     (JObj [("destination", JStr "Paris")]) start).1 =
  Ok (JObj [
    ("success", JBool false);
    ("error", JStr ("Failed to search hotels: '" +:+ type_name (JArr []) +:+
                    "' object has no attribute 'keys'"));
    ("hotels", JArr [])]).
Proof.
  apply (proj1 (document_that_is_not_an_object_fails "key" (λ _, "")
                  (answering (JArr [])) [("destination", JStr "Paris")] start
                  (UpstreamResponse 200 "OK" SERPAPI_BASE_URL "" (inr (JArr [])))
                  (JArr []) ltac:(discriminate) eq_refl eq_refl eq_refl)).
  reflexivity.
Defined.

(** X12: a 2xx document without properties (no ["properties"] key, or an
    empty list) is a successful search with no hotels: the result echoes
    the destination and the dates sent upstream and counts 0. *)
Theorem no_properties_is_an_empty_success (SERPAPI_API_KEY : string)
    (py_repr : json → string) (env : Env) (d data : dict) (w : World)
    (r : upstream_response) :
  SERPAPI_API_KEY ≠ "" →
  upstream env (search_query SERPAPI_API_KEY py_repr env d) = Answered r →
  is_success r = true →
  response_json r = inr (JObj data) →
  arg data "properties" (JArr []) = JArr [] →
  (search_hotels_live SERPAPI_API_KEY py_repr env (JObj d) w).1 =
  Ok (JObj [
    ("success", JBool true);
    ("destination", arg d "destination" (JStr ""));
    ("checkIn", check_in_of env d);
    ("checkOut", check_out_of env d);
    ("hotelCount", JInt 0);
    ("hotels", JArr []);
    ("source", JStr "Google Hotels via SerpAPI")]).
Proof.
  intros Hkey Hup Hstatus Hbody Hprops.
  rewrite search_hotels_live_dict, (not_empty_eqb _ Hkey), Hup.
  cbn [fst absorb]. unfold search_try, response_json_of.
  rewrite (raise_for_status_success _ Hstatus), Hbody.
  cbn [mbind result_bind py_keys py_get]. fold (arg data "properties" (JArr [])).
  by rewrite Hprops.
Qed.

Lemma no_properties_witness :
  (search_hotels_live "key" (λ _, "") (answering (JObj [("search_metadata", JObj [])]))
     (JObj [("destination", JStr "Atlantis")]) start).1 =
  Ok (JObj [
    ("success", JBool true);
    ("destination", JStr "Atlantis");
    ("checkIn", JStr "2026-11-05");
    ("checkOut", JStr "2026-11-07");
    ("hotelCount", JInt 0);
    ("hotels", JArr []);
    ("source", JStr "Google Hotels via SerpAPI")]).
Proof.
  apply (no_properties_is_an_empty_success "key" (λ _, "")
           (answering (JObj [("search_metadata", JObj [])]))
           [("destination", JStr "Atlantis")] [("search_metadata", JObj [])] start
           (UpstreamResponse 200 "OK" SERPAPI_BASE_URL "" 
              (inr (JObj [("search_metadata", JObj [])]))));
    [discriminate|reflexivity..].
Defined.

(** X13: a detail fetch without a usable property token (missing, null,
    empty) is refused locally with "Property token is required",
    whatever the credential, and nothing is sent upstream. *)
Theorem details_requires_a_token (SERPAPI_API_KEY : string) (env : Env) (d : dict)
    (w : World) :
  py_truthy (arg d "propertyToken" (JStr "")) = false →
  get_hotel_details SERPAPI_API_KEY env (JObj d) w =
  (Ok (JObj [("success", JBool false); ("error", JStr "Property token is required")]),
   w).
Proof. intros Htoken. by rewrite get_hotel_details_dict, Htoken. Qed.

Lemma details_requires_a_token_witness :
  get_hotel_details "key" (answering one_bad_entry)
    (JObj [("propertyToken", JNull); ("checkInDate", JStr "2026-12-24")]) start =
  (Ok (JObj [("success", JBool false); ("error", JStr "Property token is required")]),
   start).
Proof.
  exact (details_requires_a_token "key" (answering one_bad_entry)
           [("propertyToken", JNull); ("checkInDate", JStr "2026-12-24")] start
           eq_refl).
Defined.

(** X14: a skill the card advertises needs an object for its parameters:
    on any other value (a list, a string, null) it raises
    [AttributeError] at its first [params.get], before any call. *)
Theorem advertised_skill_needs_an_object (SERPAPI_API_KEY port : string)
    (py_repr : json → string) (env : Env) (skill_id task_params : json) (w : World) :
  existsb (py_eq skill_id) (advertised_skills (AGENT_CARD port)) = true →
  is_dict task_params = false →
  execute_skill SERPAPI_API_KEY py_repr env skill_id task_params w =
  (Raise (AttributeError task_params "get"), w).
Proof.
  rewrite advertised_skills_card. cbn [existsb]. intros Hskill Hparams.
  unfold execute_skill.
  destruct (py_eq skill_id (JStr "search-hotels-live"));
    [by apply search_hotels_live_not_dict|].
  destruct (py_eq skill_id (JStr "get-hotel-details"));
    [by apply get_hotel_details_not_dict | discriminate Hskill].
Qed.

Lemma advertised_skill_needs_an_object_witness :
  execute_skill "key" (λ _, "") (answering one_bad_entry)
    (JStr "search-hotels-live") (JArr [JStr "Paris"]) start =
  (Raise (AttributeError (JArr [JStr "Paris"]) "get"), start).
Proof.
  exact (advertised_skill_needs_an_object "key" "8083" (λ _, "")
           (answering one_bad_entry) (JStr "search-hotels-live") (JArr [JStr "Paris"])
           start eq_refl eq_refl).
Defined.

(** ** More on the endpoint *)

Lemma lookup_task_Some (w : World) (v : json) (k : string) (task : json) :
  lookup_task w v = Some (k, task) → v = JStr k ∧ tasks w !! k = Some task.
Proof.
  unfold lookup_task. destruct v as [| | | |s| |]; try discriminate.
  destruct (tasks w !! s) as [t|] eqn:Hs; [|discriminate].
  by intros [= <- <-].
Qed.

(** X15: a task can be read back.  After a [tasks/send] that returned,
    a [tasks/get] for the id it created builds its answer from the very
    task the send answered with, and changes nothing; the answer is
    returned, with status 200, whenever the id of the [tasks/get] request
    can be rendered, and otherwise (an id that is NaN or an infinity, or
    holds a lone surrogate) the handler raises. *)
Theorem send_then_get_round_trip (SERPAPI_API_KEY : string) (py_repr : json → string)
    (env env' : Env) (rq rq' : JsonRpcRequest) (w w1 : World) (resp : JSONResponse) :
  method rq = "tasks/send" →
  handle_a2a SERPAPI_API_KEY py_repr env (Valid rq) w = (Ok resp, w1) →
  method rq' = "tasks/get" →
  arg (params_of rq') "id" JNull = JStr (uuid4 env) →
  ∃ task,
    content resp = create_json_rpc_response (id rq) task ∧
    py_getitem task "id" = Ok (JStr (uuid4 env)) ∧
    handle_a2a SERPAPI_API_KEY py_repr env' (Valid rq') w1 =
      (json_response (create_json_rpc_response (id rq') task), w1) ∧
    (renderable (id rq') = true →
     handle_a2a SERPAPI_API_KEY py_repr env' (Valid rq') w1 =
       (Ok {| http_status := 200;
              content := create_json_rpc_response (id rq') task |}, w1)).
Proof.
  intros Hm Hrun Hm' Hid. rewrite handle_send in Hrun by done.
  destruct (send_inputs _) as [[skill_id task_params]|]; [|discriminate Hrun].
  destruct (execute_skill _ _ _ _ _ w) as [[res|] w0]; [|discriminate Hrun].
  cbv zeta in Hrun. injection Hrun as Hresp <-.
  apply json_response_Ok in Hresp as [-> Hrender].
  rewrite renderable_response in Hrender. apply andb_prop in Hrender as [_ Htask].
  assert (handle_a2a SERPAPI_API_KEY py_repr env' (Valid rq')
            (stored w0 (uuid4 env) (task_object (uuid4 env) "completed" res)) =
          (json_response (create_json_rpc_response (id rq')
                            (task_object (uuid4 env) "completed" res)),
           stored w0 (uuid4 env) (task_object (uuid4 env) "completed" res))) as Hget.
  { rewrite handle_get by done. cbv zeta. rewrite Hid.
    cbn [py_hashable lookup_task stored tasks]. by rewrite lookup_insert_eq. }
  eexists. split; [reflexivity|]. split; [reflexivity|]. split; [exact Hget|].
  intros Hid'. rewrite Hget. f_equal. apply json_response_renderable.
  by rewrite renderable_response, Hid', Htask.
Qed.

Definition get_paris : JsonRpcRequest := {|
  jsonrpc := "2.0";
  id := JInt 4;
  method := "tasks/get";
  params := Some [("id", JStr (uuid4 offline))]
|}.

Lemma send_then_get_witness :
  ∃ task,
    create_json_rpc_response (JInt 1)
      (task_object (uuid4 offline) "completed" failed_paris) =
      create_json_rpc_response (id send_paris) task ∧
    py_getitem task "id" = Ok (JStr (uuid4 offline)) ∧
    handle_a2a "key" (λ _, "") unavailable (Valid get_paris) after_send_paris =
      (json_response (create_json_rpc_response (id get_paris) task),
       after_send_paris) ∧
    (renderable (id get_paris) = true →
     handle_a2a "key" (λ _, "") unavailable (Valid get_paris) after_send_paris =
       (Ok {| http_status := 200;
              content := create_json_rpc_response (id get_paris) task |},
        after_send_paris)).
Proof.
  apply (send_then_get_round_trip "key" (λ _, "") offline unavailable send_paris
           get_paris start after_send_paris
           {| http_status := 200;
              content := create_json_rpc_response (JInt 1)
                           (task_object (uuid4 offline) "completed" failed_paris) |});
    [reflexivity| |reflexivity..].
  vm_compute. reflexivity.
Defined.

(** The task of [send_paris], read back by [get_paris]. *)
Example get_paris_returns :
  (handle_a2a "key" (λ _, "") unavailable (Valid get_paris) after_send_paris).1 =
  Ok {| http_status := 200;
        content := create_json_rpc_response (JInt 4)
                     (task_object (uuid4 offline) "completed" failed_paris) |}.
Proof. vm_compute. reflexivity. Qed.

(** A request changes at most the task it creates or cancels. *)
Lemma handle_a2a_frame (SERPAPI_API_KEY : string) (py_repr : json → string)
    (env : Env) (request : parsed) (w : World) (k : string) :
  tasks (handle_a2a SERPAPI_API_KEY py_repr env request w).2 !! k = tasks w !! k ∨
  ∃ rq, request = Valid rq ∧
    ((method rq = "tasks/send" ∧ k = uuid4 env ∧
      ∃ res, tasks (handle_a2a SERPAPI_API_KEY py_repr env request w).2 !! k =
             Some (task_object k "completed" res)) ∨
     (method rq = "tasks/cancel" ∧ arg (params_of rq) "id" JNull = JStr k ∧
      ∃ task task', tasks w !! k = Some task ∧ cancel_task task = Ok task' ∧
        tasks (handle_a2a SERPAPI_API_KEY py_repr env request w).2 !! k = Some task')).
Proof.
  destruct request as [rq|e]; [|by left].
  destruct (method_cases (method rq)) as [Hm|[Hm|[Hm|(Hs & Hg & Hc)]]].
  - rewrite handle_send by done.
    destruct (send_inputs _) as [[skill_id task_params]|]; [|by left].
    destruct (execute_skill _ _ _ _ _ w) as [[res|e] w1] eqn:Hskill;
      apply execute_skill_returns in Hskill as [Htasks _]; cbn [snd stored tasks].
    + destruct (decide (uuid4 env = k)) as [<-|Hk].
      * right. exists rq. split; [done|]. left. split; [done|]. split; [done|].
        exists res. by rewrite lookup_insert_eq.
      * left. by rewrite lookup_insert_ne, Htasks.
    + left. by rewrite Htasks.
  - left. rewrite handle_get by done. cbv zeta. destruct (py_hashable _); [|done].
    by destruct (lookup_task w _) as [[]|].
  - rewrite handle_cancel by done. cbv zeta. destruct (py_hashable _); [|by left].
    destruct (lookup_task w _) as [[k' task]|] eqn:Hfind; [|by left].
    apply lookup_task_Some in Hfind as [Hid Hk'].
    destruct (cancel_task task) as [task'|] eqn:Hcancel; [|by left].
    cbn [snd stored tasks]. destruct (decide (k' = k)) as [->|Hne].
    + right. exists rq. split; [done|]. right. split; [done|]. split; [done|].
      exists task, task'. by rewrite lookup_insert_eq.
    + left. by rewrite lookup_insert_ne.
  - left. by rewrite handle_unknown_method.
Qed.

(** X16: one request changes at most one stored task: the one created
    under the fresh id by a [tasks/send], or the one named by a
    [tasks/cancel]; every other task stays as it is, and no task is ever
    removed. *)
Theorem request_changes_at_most_one_task (SERPAPI_API_KEY : string)
    (py_repr : json → string) (env : Env) (request : parsed) (w : World) :
  let w' := (handle_a2a SERPAPI_API_KEY py_repr env request w).2 in
  (∀ k, tasks w' !! k ≠ tasks w !! k →
        ∃ rq, request = Valid rq ∧
              ((method rq = "tasks/send" ∧ k = uuid4 env) ∨
               (method rq = "tasks/cancel" ∧
                arg (params_of rq) "id" JNull = JStr k))) ∧
  (∀ k, is_Some (tasks w !! k) → is_Some (tasks w' !! k)).
Proof.
  cbv zeta. split; intros k Hk.
  - destruct (handle_a2a_frame SERPAPI_API_KEY py_repr env request w k)
      as [Hsame|(rq & -> & [(? & ? & _)|(? & ? & _)])]; [done|..];
      exists rq; split; auto.
  - destruct (handle_a2a_frame SERPAPI_API_KEY py_repr env request w k)
      as [->|(rq & -> & [(_ & _ & res & ->)|(_ & _ & ? & ? & _ & _ & ->)])]; eauto.
Qed.

Lemma request_changes_witness :
  is_Some (tasks (handle_a2a "key" (λ _, "") offline (Valid cancel_paris)
                   after_send_paris).2 !! uuid4 offline).
Proof.
  apply (proj2 (request_changes_at_most_one_task "key" (λ _, "") offline
                  (Valid cancel_paris) after_send_paris)).
  rewrite after_send_paris_task. by eexists.
Defined.

(** X17: "canceled" is final: a canceled task object stays exactly as it
    is under every later request, unless a [tasks/send] draws the same id
    again and replaces it. *)
Theorem canceled_is_final (SERPAPI_API_KEY : string) (py_repr : json → string)
    (env : Env) (request : parsed) (w : World) (k : string) (res : json) :
  tasks w !! k = Some (task_object k "canceled" res) →
  (∀ rq, request = Valid rq → method rq = "tasks/send" → uuid4 env ≠ k) →
  tasks (handle_a2a SERPAPI_API_KEY py_repr env request w).2 !! k =
  Some (task_object k "canceled" res).
Proof.
  intros Hk Hfresh.
  destruct (handle_a2a_frame SERPAPI_API_KEY py_repr env request w k)
    as [->|(rq & -> & [(Hm & -> & _)|(_ & _ & task & task' & Ht & Hc & ->)])].
  - done.
  - by destruct (Hfresh rq eq_refl Hm).
  - rewrite Hk in Ht. injection Ht as <-. rewrite cancel_task_object in Hc.
    by injection Hc as <-.
Qed.

Definition after_cancel_paris : World :=
  (handle_a2a "key" (λ _, "") offline (Valid cancel_paris) after_send_paris).2.

Lemma canceled_is_final_witness :
  tasks (handle_a2a "key" (λ _, "") unavailable (Valid get_paris)
           after_cancel_paris).2 !! uuid4 offline =
  Some (task_object (uuid4 offline) "canceled" failed_paris).
Proof.
  apply (canceled_is_final "key" (λ _, "") unavailable (Valid get_paris)
           after_cancel_paris).
  - vm_compute. reflexivity.
  - intros rq [= <-]. discriminate.
Defined.

(** The id a response echoes: the request's, or null when the request
    could not be parsed. *)
Definition echoed_id (request : parsed) : json :=
  match request with
  | Valid rq => id rq
  | Invalid _ => JNull
  end.

(** X18: every response the handler returns is a JSON-RPC 2.0 envelope
    that echoes the request id (null for an unparsable request) and has
    either a result or an error, never both; an error has a code among
    -32700, -32601 and -32000, a message and no data. *)
Theorem every_response_is_an_envelope (SERPAPI_API_KEY : string)
    (py_repr : json → string) (env : Env) (request : parsed) (w w' : World)
    (resp : JSONResponse) :
  handle_a2a SERPAPI_API_KEY py_repr env request w = (Ok resp, w') →
  (∃ result,
     content resp = JObj [
       ("jsonrpc", JStr "2.0"); ("id", echoed_id request); ("result", result)]) ∨
  (∃ code message,
     content resp = JObj [
       ("jsonrpc", JStr "2.0"); ("id", echoed_id request);
       ("error", JObj [("code", JInt code); ("message", JStr message)])] ∧
     (code = -32700 ∨ code = -32601 ∨ code = -32000)).
Proof.
  destruct request as [rq|e].
  2:{ rewrite handle_invalid. intros [= [-> _]%json_response_Ok _].
      right. do 2 eexists. split; [reflexivity|]. by left. }
  cbn [echoed_id].
  destruct (method_cases (method rq)) as [Hm|[Hm|[Hm|(Hs & Hg & Hc)]]].
  - rewrite handle_send by done.
    destruct (send_inputs _) as [[skill_id task_params]|]; [|discriminate].
    destruct (execute_skill _ _ _ _ _ w) as [[res|] w1]; [|discriminate].
    intros [= [-> _]%json_response_Ok _]. left. by eexists.
  - rewrite handle_get by done. cbv zeta. unfold task_not_found.
    destruct (py_hashable _); [|discriminate].
    destruct (lookup_task w _) as [[]|]; intros [= [-> _]%json_response_Ok _].
    + left. by eexists.
    + right. do 2 eexists. split; [reflexivity|]. by right; right.
  - rewrite handle_cancel by done. cbv zeta. unfold task_not_found.
    destruct (py_hashable _); [|discriminate].
    destruct (lookup_task w _) as [[k task]|].
    + destruct (cancel_task task); [|discriminate].
      intros [= [-> _]%json_response_Ok _]. left. by eexists.
    + intros [= [-> _]%json_response_Ok _].
      right. do 2 eexists. split; [reflexivity|]. by right; right.
  - rewrite handle_unknown_method by done. intros [= [-> _]%json_response_Ok _].
    right. do 2 eexists. split; [reflexivity|]. by right; left.
Qed.

Lemma every_response_witness :
  (∃ result,
     content {| http_status := 200;
                content := create_json_rpc_error (JStr "q-1") (-32000)
                             "Task not found" JNull |} = JObj [
       ("jsonrpc", JStr "2.0"); ("id", echoed_id (Valid get_unknown));
       ("result", result)]) ∨
  (∃ code message,
     content {| http_status := 200;
                content := create_json_rpc_error (JStr "q-1") (-32000)
                             "Task not found" JNull |} = JObj [
       ("jsonrpc", JStr "2.0"); ("id", echoed_id (Valid get_unknown));
       ("error", JObj [("code", JInt code); ("message", JStr message)])] ∧
     (code = -32700 ∨ code = -32601 ∨ code = -32000)).
Proof.
  apply (every_response_is_an_envelope "key" (λ _, "") offline (Valid get_unknown)
           after_send_paris after_send_paris
           {| http_status := 200;
              content := create_json_rpc_error (JStr "q-1") (-32000)
                           "Task not found" JNull |}).
  vm_compute. reflexivity.
Defined.




(** X20: the id of a [tasks/get] or [tasks/cancel] that is not a string
    never finds a task: a list or an object makes the handler raise
    [TypeError], and a missing id, null, a number or a boolean is
    answered with the "Task not found" envelope (-32000), which is
    returned with status 200 whenever the request id it echoes can be
    rendered (the handler raises when that id is NaN, an infinity or
    holds a lone surrogate); the world stays as it is. *)
Theorem id_that_is_not_a_string (SERPAPI_API_KEY : string) (py_repr : json → string)
    (env : Env) (rq : JsonRpcRequest) (w : World) :
  method rq = "tasks/get" ∨ method rq = "tasks/cancel" →
  (∀ k, arg (params_of rq) "id" JNull ≠ JStr k) →
  let envelope := create_json_rpc_error (id rq) (-32000) "Task not found" JNull in
  handle_a2a SERPAPI_API_KEY py_repr env (Valid rq) w =
  (match arg (params_of rq) "id" JNull with
   | JArr _ | JObj _ =>
       Raise (TypeError ("unhashable type: '" +:+
                         type_name (arg (params_of rq) "id" JNull) +:+ "'"))
   | _ => json_response envelope
   end, w) ∧
  (renderable (id rq) = true →
   json_response envelope = Ok {| http_status := 200; content := envelope |}).
Proof.
  intros Hm Hid. cbv zeta. split.
  - destruct Hm as [Hm|Hm].
    + rewrite handle_get by done. cbv zeta.
      destruct (arg (params_of rq) "id" JNull) as [| | | |k| |]; try done.
      by destruct (Hid k).
    + rewrite handle_cancel by done. cbv zeta.
      destruct (arg (params_of rq) "id" JNull) as [| | | |k| |]; try done.
      by destruct (Hid k).
  - intros Hrender. apply json_response_renderable.
    by rewrite renderable_task_not_found.
Qed.

Definition cancel_without_id : JsonRpcRequest := {|
  jsonrpc := "2.0";
  id := JInt 6;
  method := "tasks/cancel";
  params := None
|}.

Lemma id_that_is_not_a_string_witness :
  handle_a2a "key" (λ _, "") offline (Valid cancel_without_id) after_send_paris =
  (Ok {| http_status := 200;
         content := create_json_rpc_error (JInt 6) (-32000) "Task not found" JNull |},
   after_send_paris).
Proof.
  destruct (id_that_is_not_a_string "key" (λ _, "") offline cancel_without_id
              after_send_paris (or_intror eq_refl)
              (λ k H, eq_ind JNull (λ v, match v with JNull => True | _ => False end)
                        I _ H)) as [Hrun Hrendered].
  rewrite Hrun. exact (f_equal (λ out, (out, after_send_paris)) (Hrendered eq_refl)).
Defined.

(** ** The result echoes the query *)

Lemma search_query_echo (SERPAPI_API_KEY : string) (py_repr : json → string)
    (env : Env) (d : dict) :
  let q := req_params (search_query SERPAPI_API_KEY py_repr env d) in
  dict_get "q" q = Some (arg d "destination" (JStr "")) ∧
  dict_get "check_in_date" q = Some (check_in_of env d) ∧
  dict_get "check_out_date" q = Some (check_out_of env d) ∧
  dict_get "adults" q = Some (arg d "adults" (JInt 2)) ∧
  dict_get "currency" q = Some (arg d "currency" (JStr "USD")).
Proof.
  cbv zeta. unfold search_query, search_params. cbn [req_params].
  rewrite add_price_filter_truthy.
  by destruct (py_truthy (arg d "minPrice" JNull)),
    (py_truthy (arg d "maxPrice" JNull)).
Qed.

(** X21: a successful search answers about the query it sent.  The
    destination and the dates of the result are the ones that went
    upstream, every hotel record carries those dates and the currency
    that went upstream, and a date the caller left out (or left empty) is
    the clock's: tomorrow for check-in, two days later for check-out. *)
Theorem search_result_echoes_the_query (SERPAPI_API_KEY : string)
    (py_repr : json → string) (env : Env) (d : dict) (w w' : World) (res : json) :
  search_hotels_live SERPAPI_API_KEY py_repr env (JObj d) w = (Ok res, w') →
  reports_success res →
  ∃ req destination check_in check_out currency hotels,
    sent w' = (sent w ++ [req])%list ∧
    dict_get "q" (req_params req) = Some destination ∧
    dict_get "check_in_date" (req_params req) = Some check_in ∧
    dict_get "check_out_date" (req_params req) = Some check_out ∧
    dict_get "currency" (req_params req) = Some currency ∧
    py_get res "destination" JNull = Ok destination ∧
    py_get res "checkIn" JNull = Ok check_in ∧
    py_get res "checkOut" JNull = Ok check_out ∧
    py_get res "hotels" JNull = Ok (JArr hotels) ∧
    Forall (λ h, py_getitem h "checkIn" = Ok check_in ∧
                 py_getitem h "checkOut" = Ok check_out ∧
                 py_getitem h "currency" = Ok currency) hotels ∧
    (py_truthy (arg d "checkInDate" JNull) = false →
     check_in = JStr (now_plus_days env 1)) ∧
    (py_truthy (arg d "checkOutDate" JNull) = false →
     check_out = JStr (now_plus_days env 3)).
Proof.
  intros Hrun Hres.
  destruct (search_success_inv _ _ _ _ _ _ _ Hrun Hres) as (r & Hup & Htry).
  rewrite search_hotels_live_dict in Hrun.
  destruct (String.eqb SERPAPI_API_KEY ""); [by injection Hrun as <- <-|].
  injection Hrun as _ <-.
  destruct (search_query_echo SERPAPI_API_KEY py_repr env d)
    as (Hq & Hin & Hout & _ & Hcur).
  exists (search_query SERPAPI_API_KEY py_repr env d), (arg d "destination" (JStr "")),
    (check_in_of env d), (check_out_of env d), (arg d "currency" (JStr "USD")).
  unfold search_try in Htry.
  destruct (raise_for_status r) as [[]|]; [|discriminate Htry].
  cbn [mbind result_bind] in Htry.
  destruct (response_json_of r) as [data|]; [|discriminate Htry].
  cbn [mbind result_bind] in Htry.
  destruct (py_keys data) as [ks|]; [|discriminate Htry].
  cbn [mbind result_bind] in Htry.
  destruct (py_get data "properties" (JArr [])) as [properties|]; [|discriminate Htry].
  cbn [mbind result_bind] in Htry.
  destruct (py_len properties) as [n|]; [|discriminate Htry].
  cbn [mbind result_bind] in Htry.
  destruct (py_slice properties 10) as [props|]; [|discriminate Htry].
  cbn [mbind result_bind] in Htry.
  destruct (transform _ _ _ _ props []) as [hotels|] eqn:Hloop; [|discriminate Htry].
  injection Htry as <-. exists hotels.
  repeat (split; [done|]). split; [|split].
  - apply transform_filter in Hloop as (recs & Hrecs & ->). cbn [app].
    apply mapM_result_Forall2 in Hrecs.
    apply Forall_forall. intros h [_ Hh]%list_elem_of_filter.
    destruct (proj1 (list_elem_of_lookup _ _) Hh) as [i Hi].
    destruct (Forall2_lookup_r _ _ _ _ _ Hrecs Hi) as (prop & _ & Hmake).
    by apply make_hotel_inv in Hmake as (? & ? & ? & ? & ? & ? & ? & _ & _ & ->).
  - unfold check_in_of, date_or. by intros ->.
  - unfold check_out_of, date_or. by intros ->.
Qed.

Lemma search_result_echoes_witness :
  ∃ res w',
    search_hotels_live "key" (λ _, "")
      (answering (JObj [("properties", JArr twelve_properties)]))
      (JObj [("destination", JStr "Paris"); ("currency", JStr "EUR");
             ("checkInDate", JStr "")]) start = (Ok res, w') ∧
    ∃ req destination check_in check_out currency hotels,
      sent w' = (sent start ++ [req])%list ∧
      dict_get "q" (req_params req) = Some destination ∧
      dict_get "check_in_date" (req_params req) = Some check_in ∧
      dict_get "check_out_date" (req_params req) = Some check_out ∧
      dict_get "currency" (req_params req) = Some currency ∧
      py_get res "destination" JNull = Ok destination ∧
      py_get res "checkIn" JNull = Ok check_in ∧
      py_get res "checkOut" JNull = Ok check_out ∧
      py_get res "hotels" JNull = Ok (JArr hotels) ∧
      Forall (λ h, py_getitem h "checkIn" = Ok check_in ∧
                   py_getitem h "checkOut" = Ok check_out ∧
                   py_getitem h "currency" = Ok currency) hotels ∧
      (py_truthy (arg [("destination", JStr "Paris"); ("currency", JStr "EUR");
                       ("checkInDate", JStr "")] "checkInDate" JNull) = false →
       check_in = JStr (now_plus_days
                          (answering (JObj [("properties", JArr twelve_properties)])) 1)) ∧
      (py_truthy (arg [("destination", JStr "Paris"); ("currency", JStr "EUR");
                       ("checkInDate", JStr "")] "checkOutDate" JNull) = false →
       check_out = JStr (now_plus_days
                           (answering (JObj [("properties", JArr twelve_properties)])) 3)).
Proof.
  do 2 eexists. split; [vm_compute; reflexivity|].
  eapply (search_result_echoes_the_query "key" (λ _, "")
            (answering (JObj [("properties", JArr twelve_properties)]))
            [("destination", JStr "Paris"); ("currency", JStr "EUR");
             ("checkInDate", JStr "")] start);
    [vm_compute; reflexivity | reflexivity].
Defined.
